(** * Fertility.py: clustering and cubic trend fitting

    A shallow embedding of [src/Fertility.py].  The script works on NumPy
    [float64] arrays; its arithmetic is kept abstract behind the class
    [Scalar], which has two instances:

    - [float] (the kernel's IEEE 754 binary64 numbers), the arithmetic the
      script really runs on, used wherever a statement is about division by
      zero, NaN or a concrete evaluation;
    - [R], exact real arithmetic, used for the statements that are only true
      up to rounding.  Division by zero has no meaning there ([x / 0] is [0]
      in [R]); every statement over [R] is about nonzero divisors.

    Functions of the script are written once, over any [Scalar]. *)

From Stdlib Require Import ZArith List Reals Lra Lia Floats String.
From stdpp Require Import base option list gmap strings.

Set Default Proof Using "Type".
(* [1e-6] is not a binary64 number: as in Python, the literal denotes the
   nearest one. *)
Set Warnings "-inexact-float".

(** ** Scalars *)

Class Scalar (A : Type) := {
  s_zero : A;
  s_add : A -> A -> A;
  s_sub : A -> A -> A;
  s_mul : A -> A -> A;
  s_div : A -> A -> A;
  s_abs : A -> A;
  s_sqrt : A -> A;
  (** [<=] *)
  s_leb : A -> A -> bool;
  (** [isnan], pandas' notion of a null numeric cell *)
  s_isnan : A -> bool;
  (** [isinf] *)
  s_isinf : A -> bool;
  (** an integer literal or an [int -> float] cast *)
  s_of_Z : Z -> A;
  (** the literals [1e-6] and [0.5] of [derivative] *)
  s_1em6 : A;
  s_half : A
}.

Module F64.

(** The cast of an integer to [float64], exact below [2^53] in absolute
    value. *)
Definition of_Z (z : Z) : float :=
  match z with
  | Z0 => PrimFloat.zero
  | Zpos _ => PrimFloat.of_uint63 (Uint63.of_Z z)
  | Zneg p => PrimFloat.opp (PrimFloat.of_uint63 (Uint63.of_Z (Zpos p)))
  end.

End F64.

#[export] Instance float_scalar : Scalar float := {
  s_zero := PrimFloat.zero;
  s_add := PrimFloat.add;
  s_sub := PrimFloat.sub;
  s_mul := PrimFloat.mul;
  s_div := PrimFloat.div;
  s_abs := PrimFloat.abs;
  s_sqrt := PrimFloat.sqrt;
  s_leb := PrimFloat.leb;
  s_isnan := PrimFloat.is_nan;
  s_isinf := PrimFloat.is_infinity;
  s_of_Z := F64.of_Z;
  s_1em6 := 1e-6%float;
  s_half := 0.5%float
}.

#[export] Instance real_scalar : Scalar R := {
  s_zero := 0%R;
  s_add := Rplus;
  s_sub := Rminus;
  s_mul := Rmult;
  s_div := Rdiv;
  s_abs := Rabs;
  s_sqrt := R_sqrt.sqrt;
  s_leb := fun x y => if Rle_dec x y then true else false;
  s_isnan := fun _ => false;
  s_isinf := fun _ => false;
  s_of_Z := IZR;
  s_1em6 := (1 / 1000000)%R;
  s_half := (1 / 2)%R
}.

(** ** NumPy arrays

    One-dimensional [float64] arrays are lists; a scalar is an array of
    length one.  [None] stands for a Python exception ([IndexError],
    [TypeError], a [ValueError] on shapes that do not broadcast). *)

Section Arrays.
Context {A : Type} `{Scalar A}.

Definition zeros_like (a : list A) : list A := map (fun _ => s_zero) a.

(** A binary ufunc [u op v]: equal shapes go elementwise, an operand of
    length one is broadcast, anything else raises. *)
Definition broadcast (op : A -> A -> A) (u v : list A) : option (list A) :=
  if decide (length u = length v) then Some (zip_with op u v)
  else match u, v with
       | [a], _ => Some (map (op a) v)
       | _, [b] => Some (map (fun a => op a b) u)
       | _, _ => None
       end.

(** [var += t]: as [broadcast], but the result must have the shape of [var]. *)
Definition iadd (var t : list A) : option (list A) :=
  if decide (length t = length var) then Some (zip_with s_add var t)
  else match t with
       | [b] => Some (map (fun a => s_add a b) var)
       | _ => None
       end.

(** [for i in l: s = body(i, s)], stopping at the first exception. *)
Fixpoint for_each {S : Type} (l : list nat) (body : nat -> S -> option S)
    (s : S) : option S :=
  match l with
  | [] => Some s
  | i :: l' => s' ← body i s; for_each l' body s'
  end.

(** [range(n)] *)
Definition range (n : nat) : list nat := seq 0 n.

(** ** The model and the error estimator *)

(** A model [f(x, *params)]: the evaluation points, then the unpacked
    parameter vector. *)
Definition model : Type := list A -> list A -> option (list A).

(** [polynomial_fit(x, a, b, c, d)], lines 25-36: [a * x**3 + b * x**2 +
    c * x + d], elementwise in [x]; any other number of parameters is a
    [TypeError].  [x ** 2] is [x * x] and [x ** 3] is written [x * x * x]:
    the same number in exact arithmetic, and on [float64] whenever the
    products are exact, as they are on the integers used below (the
    largest, [2040 ** 3], is below [2^53]). *)
Definition polynomial_fit : model := fun x params =>
  match params with
  | [a; b; c; d] =>
      Some (map (fun x =>
        s_add (s_add (s_add (s_mul a (s_mul (s_mul x x) x))
                            (s_mul b (s_mul x x)))
                     (s_mul c x))
              d) x)
  | _ => None
  end.

(** [val * abs(params[index])], the perturbation of lines 75 and 79. *)
Definition perturbation (params : list A) (index : nat) : option A :=
  p ← params !! index; Some (s_mul s_1em6 (s_abs p)).

(** [derivative(x, f, params, index)], lines 59-79.  [index] counts from
    zero, as [range] produces it. *)
Definition derivative (x : list A) (f : model) (params : list A)
    (index : nat) : option (list A) :=
  let delta := zeros_like params in
  w ← perturbation params index;
  let delta := <[index := w]> delta in
  let up := zip_with s_add params delta in
  let low := zip_with s_sub params delta in
  f_up ← f x up;
  f_low ← f x low;
  d ← broadcast s_sub f_up f_low;
  let diff := map (s_mul s_half) d in
  w' ← perturbation params index;
  Some (map (fun v => s_div v w') diff).

(** [cov_matrix[i, j]] *)
Definition cov_at (cov : list (list A)) (i j : nat) : option A :=
  row ← cov !! i; row !! j.

(** The two loops of [error_range], lines 51-56: the value of [var] when
    they end. *)
Definition error_range_var (x : list A) (f : model) (params : list A)
    (cov_matrix : list (list A)) : option (list A) :=
  for_each (range (length params)) (fun i var =>
    deriv1 ← derivative x f params i;
    for_each (range (length params)) (fun j var =>
      deriv2 ← derivative x f params j;
      dd ← broadcast s_mul deriv1 deriv2;
      c ← cov_at cov_matrix i j;
      iadd var (map (fun v => s_mul v c) dd)) var)
    (zeros_like x).

(** [error_range(x, f, params, cov_matrix)], lines 38-57. *)
Definition error_range (x : list A) (f : model) (params : list A)
    (cov_matrix : list (list A)) : option (list A) :=
  var ← error_range_var x f params cov_matrix;
  Some (map s_sqrt var).

(** The bilinear form of the delta method at one point, accumulated from
    zero in the order of the loops: [i] outside, [j] inside. *)
Definition bilinear (n : nat) (d : nat -> A) (c : nat -> nat -> A) : A :=
  fold_left (fun acc i =>
    fold_left (fun acc j => s_add acc (s_mul (s_mul (d i) (d j)) (c i j)))
      (seq 0 n) acc)
    (seq 0 n) s_zero.

(** Entry [k] of an array and entry [(i, j)] of a matrix, zero outside. *)
Definition at_point (a : list A) (k : nat) : A := default s_zero (a !! k).
Definition cov_entry (cov : list (list A)) (i j : nat) : A :=
  default s_zero (cov_at cov i j).

End Arrays.

(** ** A state and exception monad

    The script is a sequence of statements over the interpreter's state;
    [None] is an uncaught exception, which ends the run. *)

Module StateErr.

Definition M (S X : Type) : Type := S -> option (X * S).

Definition ret {S X : Type} (x : X) : M S X := fun s => Some (x, s).

Definition bind {S X Y : Type} (m : M S X) (k : X -> M S Y) : M S Y :=
  fun s => match m s with
           | Some (x, s') => k x s'
           | None => None
           end.

Definition lift {S X : Type} (o : option X) : M S X :=
  fun s => match o with
           | Some x => Some (x, s)
           | None => None
           end.

Definition modify {S : Type} (g : S -> S) : M S unit :=
  fun s => Some (tt, g s).

(** [for i in l: body(i)] *)
Fixpoint for_ {S : Type} (l : list nat) (body : nat -> M S unit) : M S unit :=
  match l with
  | [] => ret tt
  | i :: l' => bind (body i) (fun _ => for_ l' body)
  end.

End StateErr.

Notation "'let*' x ':=' m 'in' k" :=
  (StateErr.bind m (fun x => k))
  (at level 10, x pattern, m at level 100, k at level 200).
Notation "m ';;' k" :=
  (StateErr.bind m (fun _ => k))
  (at level 100, k at level 200, right associativity).

(** ** pandas tables

    A [DataFrame] is a finite map from column names to columns; a column is
    typed, as pandas infers it from the CSV file: strings ([object]) or
    [float64] numbers, a missing number being NaN.  A column of strings is
    modelled with a string in every row: a missing cell in a column of text
    is not represented, and the statements below that depend on missing
    values are about numeric columns.  Rows are numbered by
    position: line 103 resets the index to [0..n-1] right after the rows are
    filtered and every later table is cut from that one, so pandas' alignment
    on index labels is alignment on positions.  The order of the columns is
    not kept. *)

Inductive column (A : Type) : Type :=
| StrCol (l : list string)
| NumCol (l : list A).
Arguments StrCol {A} l.
Arguments NumCol {A} l.

Abbreviation frame A := (gmap string (column A)).

(** Objects live in a heap and global names hold references to them. *)
Record py_state (A : Type) : Type := PyState {
  globals : gmap string positive;
  heap : gmap positive (frame A)
}.
Arguments PyState {A}.
Arguments globals {A}.
Arguments heap {A}.

Section Tables.
Context {A : Type} `{Scalar A}.

Definition col_len (c : column A) : nat :=
  match c with
  | StrCol l => length l
  | NumCol l => length l
  end.

(** [df[name]]; [None] is [KeyError]. *)
Definition getitem (df : frame A) (name : string) : option (column A) :=
  df !! name.

(** [series.notna()]; every row of a column of strings holds a string. *)
Definition notna (c : column A) : list bool :=
  match c with
  | StrCol l => map (fun _ => true) l
  | NumCol l => map (fun v => negb (s_isnan v)) l
  end.

(** [mask1 & mask2] *)
Definition mask_and (m1 m2 : list bool) : list bool := zip_with andb m1 m2.

(** The entries of [l] at the positions where [mask] holds. *)
Fixpoint keep {X : Type} (mask : list bool) (l : list X) : list X :=
  match mask, l with
  | b :: mask', v :: l' => if b then v :: keep mask' l' else keep mask' l'
  | _, _ => []
  end.

Definition col_keep (mask : list bool) (c : column A) : column A :=
  match c with
  | StrCol l => StrCol (keep mask l)
  | NumCol l => NumCol (keep mask l)
  end.

(** [df[mask]] with a boolean mask, a new table; the mask must have one
    entry per row. *)
Definition getitem_mask (df : frame A) (mask : list bool) : option (frame A) :=
  if bool_decide (map_Forall (fun _ c => col_len c = length mask) df)
  then Some (col_keep mask <$> df)
  else None.

(** [df[[name1, name2, ...]]], a new table of these columns. *)
Fixpoint getitem_list (df : frame A) (names : list string) : option (frame A) :=
  match names with
  | [] => Some ∅
  | name :: names' =>
      c ← df !! name;
      rest ← getitem_list df names';
      Some (<[name := c]> rest)
  end.

(** Arithmetic on columns; strings raise [TypeError]. *)
Definition col_binop (op : A -> A -> A) (c1 c2 : column A) : option (column A) :=
  match c1, c2 with
  | NumCol l1, NumCol l2 =>
      if decide (length l1 = length l2) then Some (NumCol (zip_with op l1 l2))
      else None
  | _, _ => None
  end.

(** [a * series] for a number [a] *)
Definition col_scale (a : A) (c : column A) : option (column A) :=
  match c with
  | NumCol l => Some (NumCol (map (s_mul a) l))
  | StrCol _ => None
  end.

(** ** The interpreter's state *)

Abbreviation Py := (StateErr.M (py_state A)).

(** Reading a global name; [None] is [NameError]. *)
Definition lookup_var (name : string) : Py positive :=
  fun s => match globals s !! name with
           | Some l => Some (l, s)
           | None => None
           end.

Definition deref (l : positive) : Py (frame A) :=
  fun s => match heap s !! l with
           | Some df => Some (df, s)
           | None => None
           end.

(** A new object. *)
Definition alloc (df : frame A) : Py positive :=
  fun s => let l := fresh (dom (heap s)) in
           Some (l, PyState (globals s) (<[l := df]> (heap s))).

(** [name = <object at l>] *)
Definition assign (name : string) (l : positive) : Py unit :=
  StateErr.modify (fun s => PyState (<[name := l]> (globals s)) (heap s)).

(** [<object at l>[name] = c], in place. *)
Definition setitem (l : positive) (name : string) (c : column A) : Py unit :=
  fun s => match heap s !! l with
           | Some df =>
               Some (tt, PyState (globals s) (<[l := <[name := c]> df]> (heap s)))
           | None => None
           end.

(** ** The feature builder, lines 102-108 *)

(** Line 102:
    [data_Fer = data_Fer[(data_Fer["1960"].notna()) & (data_Fer["2020"].notna())]] *)
Definition line_102 : Py unit :=
  let* l := lookup_var "data_Fer" in
  let* df := deref l in
  let* c1960 := StateErr.lift (getitem df "1960") in
  let* c2020 := StateErr.lift (getitem df "2020") in
  let mask := mask_and (notna c1960) (notna c2020) in
  let* df' := StateErr.lift (getitem_mask df mask) in
  let* l' := alloc df' in
  assign "data_Fer" l'.

(** Line 103: [data_Fer = data_Fer.reset_index(drop=True)], a new table with
    the same rows, numbered from zero. *)
Definition line_103 : Py unit :=
  let* l := lookup_var "data_Fer" in
  let* df := deref l in
  let* l' := alloc df in
  assign "data_Fer" l'.

(** Line 105: [change = data_Fer[["Country Name", "1960"]].copy()] *)
Definition line_105 : Py unit :=
  let* l := lookup_var "data_Fer" in
  let* df := deref l in
  let* sel := StateErr.lift (getitem_list df ["Country Name"; "1960"]) in
  let* l1 := alloc sel in
  let* sel' := deref l1 in
  let* l2 := alloc sel' in
  assign "change" l2.

(** The right-hand side of lines 107-108:
    [100.0/60.0 * (data_Fer["2020"] - data_Fer["1960"]) / data_Fer["1960"]],
    [df] being the table [data_Fer] refers to. *)
Definition change_expr (df : frame A) : option (column A) :=
  c2020 ← getitem df "2020";
  c1960 ← getitem df "1960";
  d ← col_binop s_sub c2020 c1960;
  m ← col_scale (s_div (s_of_Z 100) (s_of_Z 60)) d;
  c1960' ← getitem df "1960";
  col_binop s_div m c1960'.

(** Lines 107-108: [change["Change"] = ...], the right-hand side first. *)
Definition line_107 : Py unit :=
  let* l := lookup_var "data_Fer" in
  let* df := deref l in
  let* r := StateErr.lift (change_expr df) in
  let* lc := lookup_var "change" in
  setitem lc "Change" r.

(** Lines 102-103, the filter, and lines 105-108, the feature table. *)
Definition filter_rows : Py unit := line_102 ;; line_103.
Definition build_features : Py unit := line_105 ;; line_107.

(** The table a global name refers to. *)
Definition table_of (s : py_state A) (name : string) : option (frame A) :=
  l ← globals s !! name; heap s !! l.

(** The state in which [read_data] has just bound [data_Fer] to the table
    read from the file. *)
Definition loaded (df : frame A) : py_state A :=
  PyState {["data_Fer" := 1%positive]} {[1%positive := df]}.

(** The numbers lines 107-108 compute from the two columns. *)
Definition change_values (b e : list A) : list A :=
  zip_with s_div
    (map (s_mul (s_div (s_of_Z 100) (s_of_Z 60))) (zip_with s_sub e b)) b.

(** The change rate of one entity as the specification writes it:
    [(100/span) * (value_end - value_start) / value_start]. *)
Definition change_rate (span : Z) (value_start value_end : A) : A :=
  s_div (s_mul (s_div (s_of_Z 100) (s_of_Z span))
               (s_sub value_end value_start))
        value_start.

End Tables.

(** The number of rows a mask keeps. *)
Definition rows_kept (mask : list bool) : nat :=
  length (List.filter (fun b : bool => b) mask).

(** The position, in the table a mask is applied to, of the row that
    becomes row [k] of the result. *)
Fixpoint source_row (mask : list bool) (k : nat) : nat :=
  match mask with
  | [] => 0
  | true :: mask' =>
      match k with
      | 0 => 0
      | S k' => S (source_row mask' k')
      end
  | false :: mask' => S (source_row mask' k)
  end.

(** The entry of a column at a row: a string or a number. *)
Definition cell_at {A : Type} (c : column A) (k : nat) : option (string + A) :=
  match c with
  | StrCol l => inl <$> l !! k
  | NumCol l => inr <$> l !! k
  end.

(** ** The robust scaler, lines 121-127 and 148 *)

Record scaler_state (A : Type) : Type := ScalerState {
  center_ : list A;
  scale_ : list A
}.
Arguments ScalerState {A}.
Arguments center_ {A}.
Arguments scale_ {A}.

Section Scaler.
Context {A : Type} `{Scalar A}.

(** [a < b]; false when either side is NaN. *)
Definition s_ltb (a b : A) : bool := s_leb a b && negb (s_leb b a).

(** NaN, as [0 / 0]. *)
Definition s_nan : A := s_div s_zero s_zero.

(** Modelled from the spec: [check_array(X, ensure_all_finite="allow-nan")],
    the validation that [sklearn.preprocessing.RobustScaler] runs on the
    argument of [fit], [transform] and [inverse_transform] and that the
    repository does not contain.  The specification asks for "finite input
    matrices": the argument is a two-dimensional array with at least one
    row and one column and holds no infinity; NaN, a missing value, is let
    through.  The result is the number of columns, [None] a [ValueError]. *)
Definition check_array (X : list (list A)) : option nat :=
  match X with
  | [] => None
  | row0 :: _ =>
      if forallb (fun row : list A => length row =? length row0)%nat X
         && (1 <=? length row0)%nat
         && forallb (forallb (fun v => negb (s_isinf v))) X
      then Some (length row0)
      else None
  end.

(** Modelled from the spec: the order statistics of a column, which
    [sklearn.preprocessing.RobustScaler] reads and the repository does not
    compute; an insertion sort. *)
Fixpoint insert_sorted (v : A) (l : list A) : list A :=
  match l with
  | [] => [v]
  | u :: l' => if s_leb v u then v :: l else u :: insert_sorted v l'
  end.

Definition sort (l : list A) : list A := foldr insert_sorted [] l.

(** Modelled from the spec: the values of a column that are present, in
    increasing order; the library's medians and percentiles skip NaN. *)
Definition sorted_values (l : list A) : list A :=
  sort (List.filter (fun v => negb (s_isnan v)) l).

(** Column [j] of a matrix given by its rows. *)
Definition column_of (X : list (list A)) (j : nat) : option (list A) :=
  mapM (fun row : list A => row !! j) X.

(** Modelled from the spec: the "per-column median", which the library
    takes with [np.nanmedian(X, axis=0)].  With [n] values present it is
    [(low + high) / 2] for the two middle values, [low] being [high] again
    when [n] is odd; from 600 rows on NumPy reads the middle value of an odd
    column as it is.  A column with no value present gives NaN. *)
Definition nanmedian (l : list A) : A :=
  let s := sorted_values l in
  let n := length s in
  match s !! (n / 2)%nat with
  | None => s_nan
  | Some high =>
      let low := if Nat.odd n then high
                 else default high (s !! (n / 2 - 1)%nat) in
      if Nat.odd n && (600 <=? length l)%nat then high
      else s_div (s_add low high) (s_of_Z 2)
  end.

(** Modelled from the spec: [a + (b - a) * t], or [b - (b - a) * (1 - t)]
    from [t = 0.5] on, NumPy's linear interpolation between two
    neighbouring order statistics. *)
Definition lerp (a b t : A) (upper : bool) : A :=
  let diff_b_a := s_sub b a in
  if upper then s_sub b (s_mul diff_b_a (s_sub (s_of_Z 1) t))
  else s_add a (s_mul diff_b_a t).

(** Modelled from the spec: the quartiles behind the "interquartile
    range", which the library takes with [np.nanpercentile(column, (25,
    75))].  Quartile [k] of [n] values present is read at position
    [k * (n - 1) / 4] of the sorted values, interpolating linearly between
    neighbours; the last value is returned where that position is the last
    one.  A column with no value present gives NaN. *)
Definition nanpercentile (k : nat) (l : list A) : A :=
  let s := sorted_values l in
  match length s with
  | 0 => s_nan
  | S m =>
      let lo := (k * m / 4)%nat in
      let r := (k * m mod 4)%nat in
      if (m <=? lo)%nat then default s_nan (s !! m)
      else match s !! lo, s !! S lo with
           | Some a, Some b =>
               lerp a b (s_div (s_of_Z (Z.of_nat r)) (s_of_Z 4)) (2 <=? r)%nat
           | _, _ => s_nan
           end
  end.

(** Modelled from the spec: [10 * np.finfo(np.float64).eps], with
    [eps = 2^-52], the library's bound for a constant column. *)
Definition ten_eps : A :=
  s_mul (s_of_Z 10) (s_div (s_of_Z 1) (s_of_Z 4503599627370496)).

(** Modelled from the spec: the scale of a column.  The specification
    divides by the interquartile range; the library replaces a range below
    [10 * eps], that of a constant column, by 1
    ([_handle_zeros_in_scale]), so that [transform] never divides by
    zero. *)
Definition handle_zeros_in_scale (scale : A) : A :=
  if s_ltb scale ten_eps then s_of_Z 1 else scale.

(** Modelled from the spec: the "interquartile range", the third quartile
    less the first. *)
Definition iqr (l : list A) : A :=
  s_sub (nanpercentile 3 l) (nanpercentile 1 l).

(** Modelled from the spec: [scaler.fit(X)], which is sklearn's.  "[fit]
    computes per-column median and interquartile range." *)
Definition fit (X : list (list A)) : option (scaler_state A) :=
  n ← check_array X;
  cols ← mapM (column_of X) (seq 0 n);
  Some (ScalerState (map nanmedian cols)
                    (map (fun c => handle_zeros_in_scale (iqr c)) cols)).

(** Modelled from the spec: [scaler.transform(X)], which is sklearn's.
    "[transform] returns [(x - median) / IQR] elementwise."  The argument
    is validated first and must have the fitted number of columns. *)
Definition transform_row (st : scaler_state A) (row : list A) : option (list A) :=
  if decide (length row = length (center_ st)) then
    Some (zip_with s_div (zip_with s_sub row (center_ st)) (scale_ st))
  else None.

Definition transform (st : scaler_state A) (X : list (list A)) :
    option (list (list A)) :=
  _ ← check_array X; mapM (transform_row st) X.

(** Modelled from the spec: [row op= v], in place, as the library applies
    the state to a row: [v] has the length of [row] or is broadcast from
    length one; anything else raises. *)
Definition inplace (op : A -> A -> A) (row v : list A) : option (list A) :=
  if decide (length v = length row) then Some (zip_with op row v)
  else match v with
       | [b] => Some (map (fun a => op a b) row)
       | _ => None
       end.

(** Modelled from the spec: [scaler.inverse_transform(X)], which is
    sklearn's.  "[inverse_transform] reverses it exactly:
    [x * IQR + median]."  The argument is validated first: an infinity in
    it, as an overflow in [transform] leaves one, raises. *)
Definition inverse_transform_row (st : scaler_state A) (row : list A) :
    option (list A) :=
  r ← inplace s_mul row (scale_ st); inplace s_add r (center_ st).

Definition inverse_transform (st : scaler_state A) (X : list (list A)) :
    option (list (list A)) :=
  _ ← check_array X; mapM (inverse_transform_row st) X.

End Scaler.

(** ** The library calls of the script

    k-means, the silhouette score and the least-squares fit are sklearn's and
    scipy's; they are parameters of the model.  k-means draws its restarts
    from a random generator, whose state is threaded through the calls.
    Every call is logged, in the order it is made. *)

Inductive lib_call (A : Type) : Type :=
| Call_KMeans_fit (n_clusters n_init : nat) (X : list (list A))
| Call_silhouette_score (X : list (list A)) (labels : list nat)
| Call_print_score (ic : nat) (score : A)
| Call_curve_fit (xdata ydata : list A).
Arguments Call_KMeans_fit {A}.
Arguments Call_silhouette_score {A}.
Arguments Call_print_score {A}.
Arguments Call_curve_fit {A}.

Class Library (A rng : Type) := {
  (** [cluster.KMeans(n_clusters, n_init).fit(X)]: the labels and the
      cluster centres *)
  KMeans_fit : nat -> nat -> list (list A) -> rng ->
               option ((list nat * list (list A)) * rng);
  (** [skmet.silhouette_score(X, labels)] *)
  silhouette_score : list (list A) -> list nat -> option A;
  (** [curve_fit(f, xdata, ydata)]: [popt] and [pcov] *)
  curve_fit : (list A -> list A -> option (list A)) -> list A -> list A ->
              option (list A * list (list A))
}.

Record world (A rng : Type) : Type := World {
  w_rng : rng;
  w_log : list (lib_call A)
}.
Arguments World {A rng}.
Arguments w_rng {A rng}.
Arguments w_log {A rng}.

(** The result of the trend pipeline, lines 216-235. *)
Record trend (A : Type) : Type := Trend {
  t_popt : list A;
  t_pcov : list (list A);
  t_x_val : list A;
  t_fitted : list A;
  t_y_err : list A;
  t_fut_x : list A;
  t_fut_y : list A;
  t_y_fut_err : list A
}.
Arguments Trend {A}.
Arguments t_popt {A}.
Arguments t_pcov {A}.
Arguments t_x_val {A}.
Arguments t_fitted {A}.
Arguments t_y_err {A}.
Arguments t_fut_x {A}.
Arguments t_fut_y {A}.
Arguments t_y_fut_err {A}.

Section Pipelines.
Context {A rng : Type} `{Scalar A} `{Library A rng}.

Abbreviation Lib := (StateErr.M (world A rng)).

Definition log (c : lib_call A) (w : world A rng) : world A rng :=
  World (w_rng w) (w_log w ++ [c]).

Definition call_KMeans_fit (n_clusters n_init : nat) (X : list (list A)) :
    Lib (list nat * list (list A)) :=
  fun w => match KMeans_fit n_clusters n_init X (w_rng w) with
           | Some (r, g) =>
               Some (r, log (Call_KMeans_fit n_clusters n_init X)
                            (World g (w_log w)))
           | None => None
           end.

Definition call_silhouette_score (X : list (list A)) (labels : list nat) :
    Lib A :=
  fun w => match silhouette_score X labels with
           | Some score => Some (score, log (Call_silhouette_score X labels) w)
           | None => None
           end.

Definition call_curve_fit (f : list A -> list A -> option (list A))
    (xdata ydata : list A) : Lib (list A * list (list A)) :=
  fun w => match curve_fit f xdata ydata with
           | Some r => Some (r, log (Call_curve_fit xdata ydata) w)
           | None => None
           end.

(** [print(f"The silhouette score for {ic: 3d} is {score: 7.4f}")] *)
Definition print_score (ic : nat) (score : A) : Lib unit :=
  StateErr.modify (log (Call_print_score ic score)).

(** [one_silhouette(xy, num_clusters)], lines 81-96. *)
Definition one_silhouette (xy : list (list A)) (num_clusters : nat) : Lib A :=
  let* kmeans := call_KMeans_fit num_clusters 20 xy in
  let labels := fst kmeans in
  let* score := call_silhouette_score xy labels in
  StateErr.ret score.

(** [range(a, b)] *)
Definition range_from (a b : nat) : list nat := seq a (b - a).

(** The silhouette sweep, lines 136-138. *)
Definition silhouette_sweep (norm : list (list A)) : Lib unit :=
  StateErr.for_ (range_from 2 11) (fun ic =>
    let* score := one_silhouette norm ic in
    print_score ic score).

(** Lines 121-148 on the table [df_ex] of the two features: scaling, the
    sweep, the clustering and the centres in the original units. *)
Definition clustering (df_ex : list (list A)) :
    Lib (list nat * list (list A)) :=
  let* scaler := StateErr.lift (fit df_ex) in
  let* norm := StateErr.lift (transform scaler df_ex) in
  silhouette_sweep norm ;;
  let* kmeans := call_KMeans_fit 3 20 norm in
  let labels := fst kmeans in
  let cen := snd kmeans in
  let* cen := StateErr.lift (inverse_transform scaler cen) in
  StateErr.ret (labels, cen).

(** [max(years)]; [None] is the [ValueError] on an empty sequence. *)
Definition py_max (l : list Z) : option Z :=
  match l with
  | [] => None
  | z :: l' => Some (fold_left Z.max l' z)
  end.

(** [np.arange(a, b)] on integers *)
Definition arange (a b : Z) : list Z :=
  map (fun i => (a + Z.of_nat i)%Z) (seq 0 (Z.to_nat (b - a))).

(** The trend pipeline, lines 216-235.  Line 212 makes the years integers
    and line 216 casts them to [float64]; [max], [+ 1] and [np.arange] are
    taken on the integers and cast afterwards, which is the same for years
    below [2^53]. *)
Definition trend_fit (years : list Z) (y_val : list A) : Lib (trend A) :=
  let x_val := map s_of_Z years in
  let* fit_result := call_curve_fit polynomial_fit x_val y_val in
  let popt := fst fit_result in
  let pcov := snd fit_result in
  let* y_err := StateErr.lift (error_range x_val polynomial_fit popt pcov) in
  let* last := StateErr.lift (py_max years) in
  let fut_x := map s_of_Z (arange (last + 1) 2041) in
  let* fut_y := StateErr.lift (polynomial_fit fut_x popt) in
  let* y_fut_err := StateErr.lift (error_range fut_x polynomial_fit popt pcov) in
  let* fitted := StateErr.lift (polynomial_fit x_val popt) in
  StateErr.ret (Trend popt pcov x_val fitted y_err fut_x fut_y y_fut_err).

End Pipelines.

(** ** The second clustering, lines 164-186 *)

Section SubClustering.
Context {A rng : Type} `{Scalar A} `{Library A rng}.

(** [labels == c] *)
Definition label_mask (labels : list nat) (c : nat) : list bool :=
  map (fun l => l =? c)%nat labels.

(** [table[mask]] on the rows of the feature table; a mask of another
    length raises. *)
Definition getitem_rows (X : list (list A)) (mask : list bool) :
    option (list (list A)) :=
  if decide (length mask = length X) then Some (keep mask X) else None.

(** Lines 164-186 on the two features [df_ex] of the first stage and its
    [labels]: the members of cluster 0 are cut out, the scaler is fitted
    again, on them, and they are clustered into three. *)
Definition subclustering (df_ex : list (list A)) (labels : list nat) :
    StateErr.M (world A rng) (list nat * list (list A)) :=
  let* df_ex2 := StateErr.lift (getitem_rows df_ex (label_mask labels 0)) in
  let* scaler := StateErr.lift (fit df_ex2) in
  let* norm := StateErr.lift (transform scaler df_ex2) in
  let* kmeans := call_KMeans_fit 3 20 norm in
  let labels := fst kmeans in
  let cen := snd kmeans in
  let* cen := StateErr.lift (inverse_transform scaler cen) in
  StateErr.ret (labels, cen).

(** Lines 121-186: both stages. *)
Definition clustering_script (df_ex : list (list A)) :
    StateErr.M (world A rng)
      ((list nat * list (list A)) * (list nat * list (list A))) :=
  let* stage1 := clustering df_ex in
  let* stage2 := subclustering df_ex (fst stage1) in
  StateErr.ret (stage1, stage2).

End SubClustering.

(** The calls one round of the sweep makes for each entry [(k, labels,
    score)] of [results], in order: the fit, the score, the report. *)
Definition sweep_calls {A : Type} (norm : list (list A))
    (results : list (nat * list nat * A)) : list (lib_call A) :=
  flat_map (fun r =>
    [Call_KMeans_fit r.1.1 20 norm;
     Call_silhouette_score norm r.1.2;
     Call_print_score r.1.1 r.2]) results.

(** ** The delta method in exact arithmetic *)

Module Exact.
Open Scope R_scope.

(** The partial derivative of the cubic [a x^3 + b x^2 + c x + d] with
    respect to its coefficient number [index]: [x^3], [x^2], [x], [1]. *)
Definition cubic_partial (index : nat) (x : R) : R := x ^ (3 - index).

(** [g 0 + ... + g (n - 1)] *)
Fixpoint sum_upto (n : nat) (g : nat -> R) : R :=
  match n with
  | O => 0
  | S n' => sum_upto n' g + g n'
  end.

(** The variance of the delta method, as the specification writes it:
    the sum over [i] of the sum over [j] of [d i * d j * c i j]. *)
Definition quad_form (n : nat) (d : nat -> R) (c : nat -> nat -> R) : R :=
  sum_upto n (fun i => sum_upto n (fun j => d i * d j * c i j)).

(** A symmetric positive-semidefinite [n]-by-[n] matrix. *)
Definition sym_psd (n : nat) (c : nat -> nat -> R) : Prop :=
  (forall i j, (i < n)%nat -> (j < n)%nat -> c i j = c j i)
  /\ forall v : nat -> R, 0 <= quad_form n v c.

End Exact.

(** ** Sample inputs

    Concrete arrays, tables and a stand-in library, on which the functions
    above are run. *)

(** The symmetric matrix [v v^T] for [v = (1, -3, 0, 0)]: positive
    semidefinite, of rank one. *)
Definition cov_rank1 : list (list Z) :=
  [[1; -3; 0; 0]; [-3; 9; 0; 0]; [0; 0; 0; 0]; [0; 0; 0; 0]]%Z.

(** The matrix whose only nonzero entry is the variance 1 of the constant
    coefficient. *)
Definition cov_last : list (list Z) :=
  [[0; 0; 0; 0]; [0; 0; 0; 0]; [0; 0; 0; 0]; [0; 0; 0; 1]]%Z.

Module Float64Inputs.
Open Scope float_scope.

Definition x2 : list float := [1; 2].
Definition ones4 : list float := [1; 1; 1; 1].
Definition eye4 : list (list float) :=
  [[1; 0; 0; 0]; [0; 1; 0; 0]; [0; 0; 1; 0]; [0; 0; 0; 1]].
Definition D4 (i : nat) : list float :=
  default [] (derivative x2 polynomial_fit ones4 i).

(** An input on which rounding decides the sign of the variance: at
    [x = 3] the derivatives of the cubic are about [(27, 9, 3, 1)], which
    [cov_rank1] maps to zero. *)
Definition x_3 : list float := [3].
Definition params_43 : list float := [4; 3; 1; 1].
Definition cov_rank1_float : list (list float) := map (map F64.of_Z) cov_rank1.

(** An input of the size the script evaluates the trend at: the year 2020,
    where the cubic with all parameters 1 is about [8.2e9]. *)
Definition x_2020 : list float := [2020].
Definition cov_last_float : list (list float) := map (map F64.of_Z) cov_last.

(** A table as read from the file: Chad has no value for 1960. *)
Definition raw : frame float :=
  {[ "Country Name" := StrCol ["Aruba"; "Chad"; "Fiji"];
     "1960" := NumCol [2; nan; 4];
     "2020" := NumCol [3.5; 1; 2] ]}.

(** A table with a zero baseline. *)
Definition raw_zero : frame float :=
  {[ "Country Name" := StrCol ["Nowhere"];
     "1960" := NumCol [0];
     "2020" := NumCol [1] ]}.

(** The table and the state after the filter has run on [raw]. *)
Definition filtered_table : frame float :=
  {[ "Country Name" := StrCol ["Aruba"; "Fiji"];
     "1960" := NumCol [2; 4];
     "2020" := NumCol [3.5; 2] ]}.

Definition filtered : py_state float :=
  PyState {[ "data_Fer" := 3%positive ]} {[ 3%positive := filtered_table ]}.

(** Three entities with the same second feature: its interquartile range
    is zero. *)
Definition X_const : list (list float) := [[1; 5]; [2; 5]; [3; 5]].

(** Five entities whose first feature spans more than the largest
    [float64]: the middle value is [-1e308], the quartiles are [-1e308]
    and [0]. *)
Definition X_wide : list (list float) :=
  [[-1e308; 0]; [-1e308; 1]; [-1e308; 2]; [0; 3]; [1e308; 4]].

(** Three entities whose first feature has one value far below the rounding
    unit of the others. *)
Definition X_far : list (list float) := [[1e-4; 0]; [1e20; 1]; [2e20; 2]].

(** A library that labels every point 0, places no centre, scores every
    clustering 0.5 and fits the constant cubic 1; its random state counts
    the fits. *)
Definition stub_library : Library float nat := {|
  KMeans_fit := fun _ _ X g => Some ((map (fun _ => 0%nat) X, []), S g);
  silhouette_score := fun _ _ => Some 0.5;
  curve_fit := fun _ _ _ => Some ([0; 0; 0; 1], eye4)
|}.

Definition df_ex : list (list float) := [[1; 5]; [2; 7]; [3; 9]].
Definition scaler0 : scaler_state float := ScalerState [2; 7] [1; 2].
Definition norm0 : list (list float) := [[-1; -1]; [0; 0]; [1; 1]].
Definition w0 : world float nat := World 0%nat [].

(** A model of one parameter that returns the parameter alone, and one that
    returns it twice, whatever the shape of [x]. *)
Definition constant_model : list float -> list float -> option (list float) :=
  fun _ params =>
    match params with
    | [a] => Some [a]
    | _ => None
    end.

Definition two_point_model : list float -> list float -> option (list float) :=
  fun _ params =>
    match params with
    | [a] => Some [a; a]
    | _ => None
    end.

Definition x_123 : list float := [1; 2; 3].

(** The two year columns of [raw]. *)
Definition raw_1960 : column float := NumCol [2; nan; 4].
Definition raw_2020 : column float := NumCol [3.5; 1; 2].

(** A table without the 2020 column, and one whose 1960 column was read as
    text. *)
Definition raw_no_2020 : frame float :=
  {[ "Country Name" := StrCol ["Aruba"]; "1960" := NumCol [2] ]}.

Definition raw_text : frame float :=
  {[ "Country Name" := StrCol ["Aruba"; "Fiji"];
     "1960" := StrCol [".."; "4.0"];
     "2020" := NumCol [3.5; 2] ]}.

(** A library whose k-means raises when asked for more clusters than there
    are points, and otherwise answers as [stub_library]. *)
Definition small_sample_library : Library float nat := {|
  KMeans_fit := fun n_clusters _ X g =>
    if (length X <? n_clusters)%nat then None
    else Some ((map (fun _ => 0%nat) X, []), S g);
  silhouette_score := fun _ _ => Some 0.5;
  curve_fit := fun _ _ _ => Some ([0; 0; 0; 1], eye4)
|}.

(** A stand-in library that raises where sklearn's does.  Its k-means
    deals the points out to the clusters in turn and takes the first points
    as centres: one label per point, one centre per cluster, a
    [ValueError] when there are fewer points than clusters, and its random
    state counts the fits.  Its silhouette score raises unless there is
    one label per point and the number of distinct labels is between 2 and
    the number of points less one; the score it gives is one over the
    number of clusters. *)
Definition round_robin_library : Library float nat := {|
  KMeans_fit := fun n_clusters _ X g =>
    if (n_clusters =? 0)%nat || (length X <? n_clusters)%nat then None
    else Some ((map (fun i => i mod n_clusters)%nat (seq 0 (length X)),
                take n_clusters X), S g);
  silhouette_score := fun X labels =>
    let n_labels := length (remove_dups labels) in
    if (length labels =? length X)%nat && (2 <=? n_labels)%nat
       && (n_labels <? length X)%nat
    then Some (1 / F64.of_Z (Z.of_nat n_labels))
    else None;
  curve_fit := fun _ _ _ => Some ([0; 0; 0; 1], eye4)
|}.

(** Thirteen entities: the fertility rate of 1960 and its yearly change.
    The medians are 5 and -1, the interquartile ranges 4 and 0.5. *)
Definition df_13 : list (list float) :=
  [[2; 0.25]; [2.5; -0.25]; [2.75; -0.5]; [3; -0.75]; [3.5; -0.875];
   [6; -1.0625]; [4; -0.9375]; [6.5; -1.125]; [7; -1.25]; [5; -1];
   [7.25; -1.375]; [7.5; -1.4375]; [8; -1.5]].
Definition scaler_13 : scaler_state float := ScalerState [5; -1] [4; 0.5].
Definition norm_13 : list (list float) :=
  [[-0.75; 2.5]; [-0.625; 1.5]; [-0.5625; 1]; [-0.5; 0.5]; [-0.375; 0.25];
   [0.25; -0.125]; [-0.25; 0.125]; [0.375; -0.25]; [0.5; -0.5]; [0; 0];
   [0.5625; -0.75]; [0.625; -0.875]; [0.75; -1]].

(** The first stage on [df_13] against [round_robin_library]: the labels,
    the centres in the original units and the state of the library when it
    ends. *)
Definition labels_13 : list nat := [0; 1; 2; 0; 1; 2; 0; 1; 2; 0; 1; 2; 0]%nat.
Definition cen_13 : list (list float) := [[2; 0.25]; [2.5; -0.25]; [2.75; -0.5]].
Definition w_stage1 : world float nat :=
  match @clustering float nat _ round_robin_library df_13 w0 with
  | Some (_, w) => w
  | None => w0
  end.

(** The second stage: the five members of cluster 0, the state fitted on
    them (medians 4 and -0.9375, interquartile ranges 2 and 0.25), their
    scaled values, and the labels and centres of their three clusters. *)
Definition members_13 : list (list float) :=
  [[2; 0.25]; [3; -0.75]; [4; -0.9375]; [5; -1]; [8; -1.5]].
Definition scaler2_13 : scaler_state float :=
  ScalerState [4; -0.9375] [2; 0.25].
Definition norm2_13 : list (list float) :=
  [[-1; 4.75]; [-0.5; 0.75]; [0; 0]; [0.5; -0.25]; [2; -2.25]].
Definition labels2_13 : list nat := [0; 1; 2; 0; 1]%nat.
Definition cen2_13 : list (list float) := [[-1; 4.75]; [-0.5; 0.75]; [0; 0]].
Definition cen2_13' : list (list float) :=
  [[2; 0.25]; [3; -0.75]; [4; -0.9375]].

End Float64Inputs.

Module RealInputs.
Open Scope R_scope.

Definition x2_real : list R := [1; 2].
Definition ones4_real : list R := [1; 1; 1; 1].
Definition eye4_real : list (list R) :=
  [[1; 0; 0; 0]; [0; 1; 0; 0]; [0; 0; 1; 0]; [0; 0; 0; 1]].
Definition cov_rank1_real : list (list R) := map (map IZR) cov_rank1.
Definition cov_last_real : list (list R) := map (map IZR) cov_last.

(** Two rows over the reals and the state fitted on their two columns:
    medians 2 and 4, interquartile ranges 1 and 2. *)
Definition X_real : list (list R) := [[1; 2]; [3; 6]]%R.
Definition st_real : scaler_state R :=
  ScalerState (map nanmedian [[1; 3]; [2; 6]]%R)
              (map (fun c => handle_zeros_in_scale (iqr c)) [[1; 3]; [2; 6]]%R).

(** The linear model [f(x, a, b) = a * x + b]. *)
Definition linear_model : list R -> list R -> option (list R) :=
  fun x params =>
    match params with
    | [a; b] => Some (map (fun xk => a * xk + b) x)
    | _ => None
    end.

End RealInputs.

(* ===================================================================== *)
(** * Properties *)

(** ** The error estimator, over any scalars *)

Section ArrayFacts.
Context {A : Type} `{Scalar A}.

Lemma length_zeros_like (a : list A) : length (zeros_like a) = length a.
Proof. unfold zeros_like. by rewrite length_map. Qed.

Lemma at_point_zeros_like (a : list A) (k : nat) :
  at_point (zeros_like a) k = s_zero.
Proof.
  unfold at_point, zeros_like. rewrite list_lookup_fmap.
  by destruct (a !! k).
Qed.

Lemma broadcast_same (op : A -> A -> A) (u v : list A) :
  length u = length v -> broadcast op u v = Some (zip_with op u v).
Proof. intros E. unfold broadcast. by rewrite decide_True. Qed.

Lemma iadd_same (var t : list A) :
  length t = length var -> iadd var t = Some (zip_with s_add var t).
Proof. intros E. unfold iadd. by rewrite decide_True. Qed.

Lemma at_point_zip_with (op : A -> A -> A) (u v : list A) (k : nat) :
  length u = length v -> k < length u ->
  at_point (zip_with op u v) k = op (at_point u k) (at_point v k).
Proof.
  intros E Hk. unfold at_point. rewrite lookup_zip_with.
  destruct (lookup_lt_is_Some_2 u k Hk) as [a ->].
  destruct (lookup_lt_is_Some_2 v k ltac:(lia)) as [b ->]. done.
Qed.

Lemma at_point_map (g : A -> A) (u : list A) (k : nat) :
  k < length u -> at_point (map g u) k = g (at_point u k).
Proof.
  intros Hk. unfold at_point. rewrite list_lookup_fmap.
  by destruct (lookup_lt_is_Some_2 u k Hk) as [a ->].
Qed.

(** The inner loop of [error_range]: over any list of column indices it
    keeps the shape of [var] and adds, at each point, the terms of the
    bilinear form for these columns. *)
Lemma inner_loop_spec (x params : list A) (f : model) (cov : list (list A))
    (D : nat -> list A) (i : nat) (d1 : list A) (js : list nat) :
  length d1 = length x ->
  (forall j, j ∈ js ->
     derivative x f params j = Some (D j) /\ length (D j) = length x /\
     is_Some (cov_at cov i j)) ->
  forall var, length var = length x ->
  exists var',
    for_each js (fun j var =>
      deriv2 ← derivative x f params j;
      dd ← broadcast s_mul d1 deriv2;
      c ← cov_at cov i j;
      iadd var (map (fun v => s_mul v c) dd)) var = Some var'
    /\ length var' = length x
    /\ forall k, k < length x ->
       at_point var' k =
       fold_left (fun acc j =>
         s_add acc (s_mul (s_mul (at_point d1 k) (at_point (D j) k))
                          (cov_entry cov i j)))
         js (at_point var k).
Proof.
  intros Hd1. induction js as [|j js IH]; intros HD var Hvar.
  - exists var. by split_and!.
  - destruct (HD j ltac:(left)) as (Ej & Lj & [c Ec]).
    set (var1 := zip_with s_add var
                   (map (fun v => s_mul v c) (zip_with s_mul d1 (D j)))).
    assert (Ldd : length (zip_with s_mul d1 (D j)) = length x).
    { rewrite length_zip_with. lia. }
    assert (L1 : length var1 = length x).
    { unfold var1. rewrite length_zip_with, length_map. lia. }
    destruct (IH ltac:(intros j' Hj'; apply HD; by right) var1 L1)
      as (var' & Erun & L' & Hpt).
    exists var'. split_and!; [|done|].
    + cbn [for_each]. rewrite Ej. cbn.
      rewrite broadcast_same by lia. cbn. rewrite Ec. cbn.
      rewrite iadd_same by (rewrite length_map; lia). cbn. exact Erun.
    + intros k Hk. rewrite (Hpt k Hk). cbn [fold_left]. f_equal.
      unfold var1.
      rewrite at_point_zip_with by (rewrite ?length_map; lia).
      rewrite at_point_map by lia.
      rewrite at_point_zip_with by lia.
      unfold cov_entry. by rewrite Ec.
Qed.

Lemma outer_loop_spec (x params : list A) (f : model) (cov : list (list A))
    (D : nat -> list A) (js is_ : list nat) :
  (forall j, j ∈ js ->
     derivative x f params j = Some (D j) /\ length (D j) = length x) ->
  (forall i, i ∈ is_ ->
     derivative x f params i = Some (D i) /\ length (D i) = length x) ->
  (forall i j, i ∈ is_ -> j ∈ js -> is_Some (cov_at cov i j)) ->
  forall var, length var = length x ->
  exists var',
    for_each is_ (fun i var =>
      deriv1 ← derivative x f params i;
      for_each js (fun j var =>
        deriv2 ← derivative x f params j;
        dd ← broadcast s_mul deriv1 deriv2;
        c ← cov_at cov i j;
        iadd var (map (fun v => s_mul v c) dd)) var) var = Some var'
    /\ length var' = length x
    /\ forall k, k < length x ->
       at_point var' k =
       fold_left (fun acc i =>
         fold_left (fun acc j =>
           s_add acc (s_mul (s_mul (at_point (D i) k) (at_point (D j) k))
                            (cov_entry cov i j)))
           js acc)
         is_ (at_point var k).
Proof.
  intros HDj. induction is_ as [|i is_ IH]; intros HDi Hcov var Hvar.
  - exists var. by split_and!.
  - destruct (HDi i ltac:(left)) as (Ei & Li).
    destruct (inner_loop_spec x params f cov D i (D i) js Li) with (var := var)
      as (var1 & Erun1 & L1 & Hpt1); [|done|].
    { intros j Hj. destruct (HDj j Hj) as [? ?]. split_and!; [done..|].
      apply Hcov; [by left|done]. }
    destruct (IH ltac:(intros i' Hi'; apply HDi; by right)
                 ltac:(intros i' j' Hi' Hj'; apply Hcov; [by right|done])
                 var1 L1) as (var' & Erun & L' & Hpt).
    exists var'. split_and!; [|done|].
    + cbn [for_each]. rewrite Ei. cbn. rewrite Erun1. cbn. exact Erun.
    + intros k Hk. rewrite (Hpt k Hk). cbn [fold_left]. f_equal.
      by apply Hpt1.
Qed.

(** C1. For every array [x] of evaluation points, model [f], parameter
    vector [params] of length [n] and [n]-by-[n] matrix [cov], whenever
    [derivative] yields for each parameter [i] an array [D i] of the shape
    of [x], [error_range] returns an array of that shape whose entry at each
    point [k] is the square root of the sum over all [i], [j] of
    [D i [k] * D j [k] * cov[i, j]]. *)
Theorem error_range_delta_method (x : list A) (f : model) (params : list A)
    (cov : list (list A)) (D : nat -> list A) :
  (forall i, i < length params ->
     derivative x f params i = Some (D i) /\ length (D i) = length x) ->
  (forall i j, i < length params -> j < length params ->
     is_Some (cov_at cov i j)) ->
  exists r,
    error_range x f params cov = Some r
    /\ length r = length x
    /\ forall k, k < length x ->
       r !! k = Some (s_sqrt (bilinear (length params)
                                (fun i => at_point (D i) k)
                                (cov_entry cov))).
Proof.
  intros HD Hcov.
  assert (Hin : forall i, i ∈ range (length params) -> i < length params).
  { intros i Hi. apply list_elem_of_In, in_seq in Hi. lia. }
  destruct (outer_loop_spec x params f cov D
              (range (length params)) (range (length params)))
    with (var := zeros_like x) as (var & Erun & L & Hpt); auto.
  { apply length_zeros_like. }
  exists (map s_sqrt var). split_and!.
  - unfold error_range, error_range_var. rewrite Erun. done.
  - by rewrite length_map.
  - intros k Hk. rewrite list_lookup_fmap.
    destruct (lookup_lt_is_Some_2 var k ltac:(lia)) as [v Ev].
    rewrite Ev. cbn. f_equal. f_equal.
    specialize (Hpt k Hk). unfold at_point at 1 in Hpt. rewrite Ev in Hpt.
    cbn in Hpt. rewrite Hpt, at_point_zeros_like. reflexivity.
Qed.

End ArrayFacts.

(** ** Running the estimator on binary64 numbers *)

Module Float64Examples.
Import Float64Inputs.
Open Scope float_scope.

Lemma error_range_delta_method_witness :
  exists r,
    error_range x2 polynomial_fit ones4 eye4 = Some r
    /\ length r = length x2
    /\ forall k, (k < length x2)%nat ->
       r !! k = Some (s_sqrt (bilinear (length ones4)
                                (fun i => at_point (D4 i) k)
                                (cov_entry eye4))).
Proof.
  apply (error_range_delta_method x2 polynomial_fit ones4 eye4 D4).
  - intros i Hi. cbn in Hi.
    destruct i as [|[|[|[|i]]]]; [split; vm_compute; reflexivity..|lia].
  - intros i j Hi Hj. cbn in Hi, Hj.
    destruct i as [|[|[|[|i]]]]; [..|lia];
      (destruct j as [|[|[|[|j]]]]; [eexists; vm_compute; reflexivity..|lia]).
Defined.

End Float64Examples.

(** ** The estimator in exact arithmetic *)

Module ExactFacts.
Import Exact.
Open Scope R_scope.
Local Abbreviation sqrt := R_sqrt.sqrt.

Lemma zip_with_map_map {X Y Z W : Type} (op : Y -> Z -> W) (g : X -> Y)
    (h : X -> Z) (l : list X) :
  zip_with op (map g l) (map h l) = map (fun a => op (g a) (h a)) l.
Proof. induction l as [|a l IH]; cbn; [done|by rewrite IH]. Qed.

Lemma fold_left_sum_upto (g : nat -> R) (n : nat) (a : R) :
  fold_left (fun acc j => acc + g j) (seq 0 n) a = a + sum_upto n g.
Proof.
  induction n as [|n IH].
  - cbn. lra.
  - rewrite seq_S, fold_left_app, IH. cbn. lra.
Qed.

Lemma fold_left_nested_sum (g : nat -> nat -> R) (m n : nat) (a : R) :
  fold_left (fun acc i => fold_left (fun acc j => acc + g i j) (seq 0 m) acc)
    (seq 0 n) a
  = a + sum_upto n (fun i => sum_upto m (g i)).
Proof.
  induction n as [|n IH].
  - cbn. lra.
  - rewrite seq_S, fold_left_app, IH. cbn.
    rewrite fold_left_sum_upto. lra.
Qed.

(** Over the reals the accumulation order of the loops does not matter. *)
Lemma bilinear_quad_form (n : nat) (d : nat -> R) (c : nat -> nat -> R) :
  bilinear n d c = quad_form n d c.
Proof.
  unfold bilinear, quad_form. cbn [s_add s_mul s_zero real_scalar].
  rewrite (fold_left_nested_sum (fun i j => d i * d j * c i j)). lra.
Qed.

Lemma perturbation_nonzero (params : list R) (index : nat) (p : R) :
  params !! index = Some p -> p <> 0 ->
  exists w, perturbation params index = Some w /\ w <> 0
            /\ w = 1 / 1000000 * Rabs p.
Proof.
  intros E Hp. exists (1 / 1000000 * Rabs p). unfold perturbation.
  rewrite E. cbn. split_and!; [done| |done].
  assert (Rabs p <> 0) by (by apply Rabs_no_R0). 
  apply Rmult_integral_contrapositive_currified; [lra|done].
Qed.

(** The central difference is exact on the cubic, which is linear in each
    coefficient. *)
Lemma derivative_cubic (x : list R) (params : list R) (index : nat) (p : R) :
  length params = 4%nat ->
  params !! index = Some p -> p <> 0 ->
  derivative x polynomial_fit params index = Some (map (cubic_partial index) x).
Proof.
  intros L E Hp.
  destruct params as [|a [|b [|c [|d [|? ?]]]]]; try discriminate L.
  destruct (perturbation_nonzero _ _ _ E Hp) as (w & Ew & Hw & _).
  unfold derivative. rewrite Ew. cbn [mbind option_bind].
  destruct index as [|[|[|[|index]]]]; [..|discriminate E];
    cbn [zeros_like map list_insert insert zip_with polynomial_fit
         mbind option_bind];
    (rewrite broadcast_same by (by rewrite !length_map));
    cbn [mbind option_bind]; rewrite zip_with_map_map, !map_map;
    f_equal; apply map_ext; intros xk;
    unfold cubic_partial; cbn [s_add s_sub s_mul s_div s_half s_zero
                               real_scalar Nat.sub pow];
    field; exact Hw.
Qed.

Lemma cov_entry_at (cov : list (list R)) (i j : nat) (c : R) :
  cov_at cov i j = Some c -> cov_entry cov i j = c.
Proof. unfold cov_entry. by intros ->. Qed.

(** [error_range] in exact arithmetic: the square root of the quadratic
    form of the derivatives, at each point. *)
Lemma error_range_var_exact (x : list R) (f : model) (params : list R)
    (cov : list (list R)) (D : nat -> list R) :
  (forall i, (i < length params)%nat ->
     derivative x f params i = Some (D i) /\ length (D i) = length x) ->
  (forall i j, (i < length params)%nat -> (j < length params)%nat ->
     is_Some (cov_at cov i j)) ->
  exists var,
    error_range_var x f params cov = Some var
    /\ length var = length x
    /\ forall k, (k < length x)%nat ->
       var !! k = Some (quad_form (length params)
                          (fun i => at_point (D i) k) (cov_entry cov)).
Proof.
  intros HD Hcov.
  assert (Hin : forall i, i ∈ range (length params) ->
                          (i < length params)%nat).
  { intros i Hi. apply list_elem_of_In, in_seq in Hi. lia. }
  destruct (outer_loop_spec x params f cov D
              (range (length params)) (range (length params)))
    with (var := zeros_like x) as (var & Erun & L & Hpt); auto.
  { apply length_zeros_like. }
  exists var. split_and!; [done..|].
  intros k Hk.
  destruct (lookup_lt_is_Some_2 var k ltac:(lia)) as [v Ev].
  rewrite Ev. f_equal.
  specialize (Hpt k Hk). unfold at_point at 1 in Hpt. rewrite Ev in Hpt.
  cbn in Hpt. rewrite Hpt, at_point_zeros_like.
  apply (bilinear_quad_form (length params)).
Qed.

Lemma sum_upto_ext (n : nat) (g g' : nat -> R) :
  (forall i, g i = g' i) -> sum_upto n g = sum_upto n g'.
Proof. intros E. induction n as [|n IH]; cbn; [done|by rewrite IH, E]. Qed.

Lemma quad_form_ext (n : nat) (d d' : nat -> R) (c : nat -> nat -> R) :
  (forall i, d i = d' i) -> quad_form n d c = quad_form n d' c.
Proof.
  intros E. unfold quad_form. apply sum_upto_ext. intros i.
  apply sum_upto_ext. intros j. by rewrite !E.
Qed.

Lemma at_point_map_lookup (g : R -> R) (x : list R) (k : nat) (xk : R) :
  x !! k = Some xk -> at_point (map g x) k = g xk.
Proof. intros E. unfold at_point. by rewrite list_lookup_fmap, E. Qed.

Lemma Forall_nonzero_lookup (params : list R) (i : nat) :
  Forall (fun p => p <> 0) params -> (i < length params)%nat ->
  exists p, params !! i = Some p /\ p <> 0.
Proof.
  intros HF Hi. destruct (lookup_lt_is_Some_2 params i Hi) as [p Ep].
  exists p. split; [done|]. eapply (Forall_lookup_1 _ _ _ _ HF Ep).
Qed.

(** C2. On the cubic model, whenever [params[index]] is not zero,
    [derivative] is, in exact arithmetic, the analytic partial derivative
    [x^3], [x^2], [x] or [1]; hence, when no parameter is zero,
    [error_range] is exactly the analytic delta-method formula, the square
    root of the sum over [i], [j] of [x^(3-i) * x^(3-j) * cov[i, j]]. *)
Theorem central_difference_exact_on_cubic (x params : list R) :
  length params = 4%nat ->
  (forall index p, params !! index = Some p -> p <> 0 ->
     derivative x polynomial_fit params index
     = Some (map (cubic_partial index) x))
  /\ (forall cov : list (list R),
        Forall (fun p => p <> 0) params ->
        (forall i j, (i < 4)%nat -> (j < 4)%nat -> is_Some (cov_at cov i j)) ->
        error_range x polynomial_fit params cov
        = Some (map (fun xk =>
                  sqrt (quad_form 4 (fun i => cubic_partial i xk)
                          (cov_entry cov))) x)).
Proof.
  intros L. split.
  - intros index p E Hp. by apply derivative_cubic with (p := p).
  - intros cov Hnz Hcov.
    destruct (error_range_var_exact x polynomial_fit params cov
                (fun i => map (cubic_partial i) x))
      as (var & Evar & Lvar & Hpt).
    + intros i Hi. destruct (Forall_nonzero_lookup params i Hnz Hi)
        as (p & Ep & Hp).
      split; [by apply derivative_cubic with (p := p)|by rewrite length_map].
    + rewrite L. exact Hcov.
    + unfold error_range. rewrite Evar. cbn [mbind option_bind]. f_equal.
      apply list_eq. intros k. rewrite !list_lookup_fmap.
      destruct (x !! k) as [xk|] eqn:Ek.
      * assert (Hk : (k < length x)%nat) by (by eapply lookup_lt_Some).
        rewrite (Hpt k Hk), L. cbn [fmap option_fmap option_map].
        do 2 f_equal.
        apply quad_form_ext. intros i. by apply at_point_map_lookup.
      * apply lookup_ge_None in Ek.
        assert (var !! k = None) as -> by (apply lookup_ge_None; lia). done.
Qed.

(** C9, as amended.  In exact arithmetic, when no parameter is zero and
    the covariance matrix is symmetric positive semidefinite, the variance
    that [error_range] accumulates is, at each point, the quadratic form of
    the finite-difference derivatives and is not negative: the square root
    is taken of a non-negative number and every returned error is
    non-negative. *)
Theorem error_range_variance_nonneg (x : list R) (f : model)
    (params : list R) (cov : list (list R)) (D : nat -> list R) :
  (forall i, (i < length params)%nat ->
     derivative x f params i = Some (D i) /\ length (D i) = length x) ->
  Forall (fun p => p <> 0) params ->
  (forall i j, (i < length params)%nat -> (j < length params)%nat ->
     is_Some (cov_at cov i j)) ->
  sym_psd (length params) (cov_entry cov) ->
  exists var,
    error_range_var x f params cov = Some var
    /\ error_range x f params cov = Some (map sqrt var)
    /\ length var = length x
    /\ forall k, (k < length x)%nat ->
       exists v, var !! k = Some v
         /\ v = quad_form (length params) (fun i => at_point (D i) k)
                  (cov_entry cov)
         /\ 0 <= v
         /\ map sqrt var !! k = Some (sqrt v)
         /\ 0 <= sqrt v
         /\ sqrt v * sqrt v = v.
Proof.
  intros HD _ Hcov [_ Hpsd].
  destruct (error_range_var_exact x f params cov D HD Hcov)
    as (var & Evar & Lvar & Hpt).
  exists var. split_and!; [done| |done|].
  - unfold error_range. by rewrite Evar.
  - intros k Hk. eexists. split; [by apply Hpt|].
    split; [done|].
    pose proof (Hpsd (fun i => at_point (D i) k)) as Hge.
    split_and!; [done| |by apply sqrt_pos|by apply sqrt_sqrt].
    by rewrite list_lookup_fmap, (Hpt k Hk).
Qed.

End ExactFacts.

(** ** The estimator at concrete real inputs *)

Module ExactExamples.
Import Exact ExactFacts RealInputs.
Open Scope R_scope.
Local Abbreviation sqrt := R_sqrt.sqrt.

Lemma ones4_nonzero : Forall (fun p => p <> 0) ones4_real.
Proof. unfold ones4_real. repeat constructor; lra. Qed.

Lemma eye4_entries (i j : nat) :
  (i < 4)%nat -> (j < 4)%nat -> is_Some (cov_at eye4_real i j).
Proof.
  intros Hi Hj.
  destruct i as [|[|[|[|i]]]]; [..|lia];
    (destruct j as [|[|[|[|j]]]]; [eexists; reflexivity..|lia]).
Qed.

Lemma eye4_sym_psd : sym_psd 4 (cov_entry eye4_real).
Proof.
  split.
  - intros i j Hi Hj.
    destruct i as [|[|[|[|i]]]]; [..|lia];
      (destruct j as [|[|[|[|j]]]]; [reflexivity..|lia]).
  - intros v. unfold quad_form. cbn.
    pose proof (Rle_0_sqr (v 0%nat)). pose proof (Rle_0_sqr (v 1%nat)).
    pose proof (Rle_0_sqr (v 2%nat)). pose proof (Rle_0_sqr (v 3%nat)).
    unfold Rsqr in *. lra.
Qed.

Lemma central_difference_exact_on_cubic_witness :
  (forall index p, ones4_real !! index = Some p -> p <> 0 ->
     derivative x2_real polynomial_fit ones4_real index
     = Some (map (cubic_partial index) x2_real))
  /\ (forall cov : list (list R),
        Forall (fun p => p <> 0) ones4_real ->
        (forall i j, (i < 4)%nat -> (j < 4)%nat -> is_Some (cov_at cov i j)) ->
        error_range x2_real polynomial_fit ones4_real cov
        = Some (map (fun xk =>
                  sqrt (quad_form 4 (fun i => cubic_partial i xk)
                          (cov_entry cov))) x2_real)).
Proof. apply (central_difference_exact_on_cubic x2_real ones4_real). reflexivity. Defined.

Lemma error_range_variance_nonneg_witness :
  exists var,
    error_range_var x2_real polynomial_fit ones4_real eye4_real = Some var
    /\ error_range x2_real polynomial_fit ones4_real eye4_real = Some (map sqrt var)
    /\ length var = length x2_real
    /\ forall k, (k < length x2_real)%nat ->
       exists v, var !! k = Some v
         /\ v = quad_form (length ones4_real)
                  (fun i => at_point (map (cubic_partial i) x2_real) k)
                  (cov_entry eye4_real)
         /\ 0 <= v
         /\ map sqrt var !! k = Some (sqrt v)
         /\ 0 <= sqrt v
         /\ sqrt v * sqrt v = v.
Proof.
  apply (error_range_variance_nonneg x2_real polynomial_fit ones4_real eye4_real
           (fun i => map (cubic_partial i) x2_real)).
  - intros i Hi.
    destruct (Forall_nonzero_lookup ones4_real i ones4_nonzero Hi) as (p & Ep & Hp).
    split; [by apply derivative_cubic with (p := p)|reflexivity].
  - exact ones4_nonzero.
  - exact eye4_entries.
  - exact eye4_sym_psd.
Defined.

End ExactExamples.

(** ** The derivative at a zero parameter, on binary64 numbers *)

Module Float64Facts.
Open Scope float_scope.

(** IEEE 754: dividing by zero never gives a finite number; [0 / 0] and
    [nan / 0] are NaN, everything else is an infinity. *)
Lemma div_by_zero_not_finite (d : float) : is_finite (d / 0) = false.
Proof.
  unfold is_finite, is_nan, is_infinity.
  rewrite !FloatAxioms.eqb_spec, abs_spec, div_spec.
  change (Prim2SF 0) with (S754_zero false).
  change (Prim2SF infinity) with (S754_infinity false).
  destruct (Prim2SF d) as [[]|[]| |[] m e]; reflexivity.
Qed.

Lemma perturbation_zero (params : list float) (index : nat) (p : float) :
  params !! index = Some p -> p = 0 \/ p = neg_zero ->
  perturbation params index = Some 0.
Proof.
  intros E Hp. unfold perturbation. rewrite E.
  destruct Hp as [-> | ->]; reflexivity.
Qed.

Lemma derivative_zero_not_finite (x : list float) (f : model)
    (params : list float) (index : nat) (p : float) (r : list float) :
  params !! index = Some p -> p = 0 \/ p = neg_zero ->
  derivative x f params index = Some r ->
  Forall (fun v => is_finite v = false) r.
Proof.
  intros E Hp. unfold derivative.
  rewrite (perturbation_zero params index p E Hp). cbn [mbind option_bind].
  destruct (f x (zip_with s_add _ _)) as [f_up|]; cbn [mbind option_bind];
    [|discriminate].
  destruct (f x (zip_with s_sub _ _)) as [f_low|]; cbn [mbind option_bind];
    [|discriminate].
  destruct (broadcast _ _ _) as [d|]; cbn [mbind option_bind];
    [|discriminate].
  intros [= <-]. apply Forall_fmap, Forall_forall. intros u _.
  apply div_by_zero_not_finite.
Qed.

(** C4. When [params[index]] is exactly zero (of either sign), the
    perturbation [val * abs(params[index])] is zero, no other width is
    substituted, and every number [derivative] returns is a quotient by
    zero, hence not finite.  On the cubic model the call does return, with
    one such number per evaluation point; for instance NaN at [x = 2],
    [params = (1, 0, 1, 1)], [index = 1]. *)
Theorem derivative_divides_by_zero (x : list float) (f : model)
    (params : list float) (index : nat) (p : float) :
  params !! index = Some p -> p = 0 \/ p = neg_zero ->
  perturbation params index = Some 0
  /\ (forall r, derivative x f params index = Some r ->
        Forall (fun v => is_finite v = false) r)
  /\ (length params = 4%nat ->
      exists r, derivative x polynomial_fit params index = Some r
                /\ length r = length x
                /\ Forall (fun v => is_finite v = false) r)
  /\ derivative [2] polynomial_fit [1; 0; 1; 1] 1 = Some [nan].
Proof.
  intros E Hp. split_and!.
  - by apply perturbation_zero with (p := p).
  - intros r. by apply derivative_zero_not_finite with (p := p).
  - intros L.
    destruct params as [|a [|b [|c [|d [|? ?]]]]]; try discriminate L.
    assert (exists r, derivative x polynomial_fit [a; b; c; d] index = Some r
                      /\ length r = length x) as (r & Er & Lr).
    { unfold derivative. rewrite (perturbation_zero _ index p E Hp).
      cbn [mbind option_bind].
      destruct index as [|[|[|[|index]]]]; [..|discriminate E];
        cbn [zeros_like map list_insert insert zip_with polynomial_fit
             mbind option_bind];
        (rewrite broadcast_same by (by rewrite !length_map));
        cbn [mbind option_bind]; eexists; (split; [reflexivity|]);
        by rewrite !length_map, length_zip_with, !length_map, Nat.min_id. }
    exists r. split_and!; [done..|].
    by apply derivative_zero_not_finite with (x := x) (f := polynomial_fit)
      (params := [a; b; c; d]) (index := index) (p := p).
  - vm_compute. reflexivity.
Qed.

Lemma derivative_divides_by_zero_witness :
  perturbation [1; 0; 1; 1] 1 = Some 0
  /\ (forall r, derivative [2] polynomial_fit [1; 0; 1; 1] 1 = Some r ->
        Forall (fun v => is_finite v = false) r)
  /\ (length [1; 0; 1; 1] = 4%nat ->
      exists r, derivative [2] polynomial_fit [1; 0; 1; 1] 1 = Some r
                /\ length r = length [2]
                /\ Forall (fun v => is_finite v = false) r)
  /\ derivative [2] polynomial_fit [1; 0; 1; 1] 1 = Some [nan].
Proof.
  apply (derivative_divides_by_zero [2] polynomial_fit [1; 0; 1; 1] 1 0).
  - reflexivity.
  - left. reflexivity.
Defined.

Lemma cov_rank1_sym_psd : Exact.sym_psd 4 (cov_entry RealInputs.cov_rank1_real).
Proof.
  split.
  - intros i j Hi Hj.
    destruct i as [|[|[|[|i]]]]; [..|lia];
      (destruct j as [|[|[|[|j]]]]; [reflexivity..|lia]).
  - intros v. unfold Exact.quad_form. cbn.
    pose proof (Rle_0_sqr (v 0%nat - 3 * v 1%nat)%R) as Hsq.
    unfold Rsqr in Hsq. lra.
Qed.

(** C9, as stated, fails on binary64 numbers.  No parameter is zero and the
    matrix is symmetric positive semidefinite, yet the rounding of the
    products leaves the accumulated variance below zero, and its square
    root is NaN. *)
Lemma variance_negative_on_binary64 :
  Forall (fun p => is_zero p = false) Float64Inputs.params_43
  /\ Exact.sym_psd 4 (cov_entry RealInputs.cov_rank1_real)
  /\ (exists v, error_range_var Float64Inputs.x_3 polynomial_fit
                  Float64Inputs.params_43 Float64Inputs.cov_rank1_float
                = Some [v]
                /\ (v <? 0) = true)
  /\ error_range Float64Inputs.x_3 polynomial_fit Float64Inputs.params_43
       Float64Inputs.cov_rank1_float = Some [nan].
Proof.
  split_and!.
  - repeat constructor.
  - exact cov_rank1_sym_psd.
  - eexists. split; vm_compute; reflexivity.
  - vm_compute. reflexivity.
Qed.

(** C2, as stated, fails on binary64 numbers.  No parameter is zero, yet
    at the year 2020 the central difference for the constant coefficient is
    0.95367431640625 where the analytic derivative is 1: the two model
    values are near [8.2e9] and their rounding is of the size of the
    difference taken.  With the covariance matrix [cov_last] the analytic
    delta-method error is [sqrt 1 = 1] and [error_range] returns
    0.95367431640625: they differ by more than the relative tolerance
    [1e-4]. *)
Lemma central_difference_inexact_on_binary64 :
  Forall (fun p => is_zero p = false) Float64Inputs.ones4
  /\ derivative Float64Inputs.x_2020 polynomial_fit Float64Inputs.ones4 3
     = Some [0.95367431640625]
  /\ (1e-4 * 1 <? abs (0.95367431640625 - 1)) = true
  /\ error_range Float64Inputs.x_2020 polynomial_fit Float64Inputs.ones4
       Float64Inputs.cov_last_float = Some [0.95367431640625]
  /\ R_sqrt.sqrt (Exact.quad_form 4 (fun i => Exact.cubic_partial i 2020)
                    (cov_entry RealInputs.cov_last_real)) = 1%R.
Proof.
  split_and!.
  - repeat constructor.
  - vm_compute. reflexivity.
  - vm_compute. reflexivity.
  - vm_compute. reflexivity.
  - replace (Exact.quad_form _ _ _) with 1%R; [apply sqrt_1|].
    unfold Exact.quad_form, Exact.cubic_partial. cbn. lra.
Qed.

End Float64Facts.

(** ** The feature builder *)

Section TableFacts.
Context {A : Type} `{Scalar A}.

Lemma length_keep_same {X Y : Type} (mask : list bool) (l1 : list X)
    (l2 : list Y) :
  length l1 = length l2 -> length (keep mask l1) = length (keep mask l2).
Proof.
  revert l1 l2. induction mask as [|b mask IH]; intros [|v1 l1] [|v2 l2] L;
    try discriminate L; try reflexivity.
  injection L as L. destruct b; cbn; [f_equal|]; by apply IH.
Qed.

(** A row kept by a mask that tests [P] on this very column satisfies [P]. *)
Lemma keep_Forall_left {X : Type} (P : X -> bool) (l : list X)
    (m2 : list bool) :
  Forall (fun v => P v = true) (keep (mask_and (map P l) m2) l).
Proof.
  revert m2. induction l as [|v l IH]; intros [|b2 m2]; cbn; try constructor.
  destruct (P v) eqn:E, b2; cbn; try apply IH. constructor; [done|apply IH].
Qed.

Lemma keep_Forall_right {X : Type} (P : X -> bool) (l : list X)
    (m1 : list bool) :
  Forall (fun v => P v = true) (keep (mask_and m1 (map P l)) l).
Proof.
  revert m1. induction l as [|v l IH]; intros [|b1 m1]; cbn; try constructor.
  destruct (P v) eqn:E, b1; cbn; try apply IH. constructor; [done|apply IH].
Qed.

Lemma length_mask_and (m1 m2 : list bool) :
  length m1 = length m2 -> length (mask_and m1 m2) = length m1.
Proof. intros L. unfold mask_and. rewrite length_zip_with. lia. Qed.

Lemma length_notna (c : column A) : length (notna c) = col_len c.
Proof. destruct c; cbn; by rewrite length_map. Qed.

(** Line 102 allocates the filtered table and rebinds [data_Fer]. *)
Lemma line_102_spec (s : py_state A) (l : positive) (df : frame A)
    (c1960 c2020 : column A) :
  globals s !! "data_Fer" = Some l ->
  heap s !! l = Some df ->
  df !! "1960" = Some c1960 ->
  df !! "2020" = Some c2020 ->
  map_Forall (fun _ c => col_len c = col_len c1960) df ->
  let mask := mask_and (notna c1960) (notna c2020) in
  let l' := fresh (dom (heap s)) in
  line_102 s
  = Some (tt, PyState (<["data_Fer" := l']> (globals s))
                      (<[l' := col_keep mask <$> df]> (heap s))).
Proof.
  intros Eg Eh E60 E20 Hwf mask l'.
  assert (Lmask : length mask = col_len c1960).
  { unfold mask. rewrite length_mask_and, length_notna; [done|].
    rewrite !length_notna. symmetry. by apply (Hwf "2020"). }
  unfold line_102, StateErr.bind, lookup_var, deref, StateErr.lift, getitem,
    getitem_mask, alloc, assign, StateErr.modify.
  rewrite Eg, Eh, E60, E20. fold mask.
  rewrite bool_decide_true; [done|].
  intros name c Ec. rewrite Lmask. by apply (Hwf name).
Qed.

(** Line 103 allocates a copy of the table and rebinds [data_Fer]. *)
Lemma line_103_spec (s : py_state A) (l : positive) (df : frame A) :
  globals s !! "data_Fer" = Some l ->
  heap s !! l = Some df ->
  let l' := fresh (dom (heap s)) in
  line_103 s
  = Some (tt, PyState (<["data_Fer" := l']> (globals s))
                      (<[l' := df]> (heap s))).
Proof.
  intros Eg Eh l'.
  unfold line_103, StateErr.bind, lookup_var, deref, alloc, assign,
    StateErr.modify.
  by rewrite Eg, Eh.
Qed.

(** Lines 102-103 from the state in which the file has just been read. *)
Lemma filter_rows_spec (df : frame A) (c1960 c2020 : column A) :
  df !! "1960" = Some c1960 ->
  df !! "2020" = Some c2020 ->
  map_Forall (fun _ c => col_len c = col_len c1960) df ->
  let mask := mask_and (notna c1960) (notna c2020) in
  exists s l,
    filter_rows (loaded df) = Some (tt, s)
    /\ globals s !! "data_Fer" = Some l
    /\ heap s !! l = Some (col_keep mask <$> df).
Proof.
  intros E60 E20 Hwf mask.
  pose proof (line_102_spec (loaded df) 1%positive df c1960 c2020) as H102.
  cbn zeta in H102.
  specialize (H102 (lookup_singleton_eq _ _) (lookup_singleton_eq _ _)
                E60 E20 Hwf).
  set (s1 := PyState _ _) in H102.
  pose proof (line_103_spec s1 (fresh (dom (heap (loaded df))))
                (col_keep mask <$> df)) as H103.
  cbn zeta in H103.
  specialize (H103 (lookup_insert_eq _ _ _) (lookup_insert_eq _ _ _)).
  eexists _, _. split_and!.
  - unfold filter_rows, StateErr.bind. rewrite H102. exact H103.
  - cbn. apply lookup_insert_eq.
  - cbn. apply lookup_insert_eq.
Qed.

Lemma change_expr_num (df : frame A) (b e : list A) :
  df !! "1960" = Some (NumCol b) ->
  df !! "2020" = Some (NumCol e) ->
  length b = length e ->
  change_expr df = Some (NumCol (change_values b e)).
Proof.
  intros E60 E20 L. unfold change_expr, getitem, col_binop, col_scale.
  rewrite E20, E60. cbn [mbind option_bind].
  rewrite decide_True by done. cbn [mbind option_bind].
  rewrite decide_True; [done|].
  rewrite length_map, length_zip_with. lia.
Qed.

Lemma length_change_values (b e : list A) :
  length b = length e -> length (change_values b e) = length b.
Proof.
  intros L. unfold change_values.
  rewrite length_zip_with, length_map, length_zip_with. lia.
Qed.

Lemma change_values_lookup (b e : list A) (k : nat) (bk ek : A) :
  b !! k = Some bk -> e !! k = Some ek ->
  change_values b e !! k = Some (change_rate 60 bk ek).
Proof.
  intros Eb Ee. unfold change_values, change_rate.
  rewrite lookup_zip_with, list_lookup_fmap, lookup_zip_with, Ee, Eb.
  reflexivity.
Qed.

(** Line 105 allocates the two-column selection, then its copy, and binds
    [change] to the copy. *)
Lemma line_105_spec (s : py_state A) (l : positive) (df : frame A)
    (cn c1960 : column A) :
  globals s !! "data_Fer" = Some l ->
  heap s !! l = Some df ->
  df !! "Country Name" = Some cn ->
  df !! "1960" = Some c1960 ->
  let sel : frame A := <["Country Name" := cn]> (<["1960" := c1960]> ∅) in
  let l1 := fresh (dom (heap s)) in
  let l2 := fresh (dom (<[l1 := sel]> (heap s))) in
  line_105 s
  = Some (tt, PyState (<["change" := l2]> (globals s))
                      (<[l2 := sel]> (<[l1 := sel]> (heap s)))).
Proof.
  intros Eg Eh Ecn E60 sel l1 l2.
  unfold line_105, StateErr.bind, lookup_var, deref, StateErr.lift, alloc,
    assign, StateErr.modify.
  rewrite Eg, Eh. cbn [getitem_list mbind option_bind].
  rewrite Ecn, E60. cbn [mbind option_bind heap globals].
  fold sel. fold l1. rewrite lookup_insert_eq. fold l2. reflexivity.
Qed.

(** Lines 107-108 write the new column into the object [change] refers to
    and into no other. *)
Lemma line_107_spec (s : py_state A) (l lc : positive) (df ch : frame A)
    (b e : list A) :
  globals s !! "data_Fer" = Some l ->
  heap s !! l = Some df ->
  df !! "1960" = Some (NumCol b) ->
  df !! "2020" = Some (NumCol e) ->
  length b = length e ->
  globals s !! "change" = Some lc ->
  heap s !! lc = Some ch ->
  line_107 s
  = Some (tt, PyState (globals s)
                (<[lc := <["Change" := NumCol (change_values b e)]> ch]>
                   (heap s))).
Proof.
  intros Eg Eh E60 E20 L Egc Ehc.
  unfold line_107, StateErr.bind, lookup_var, deref, StateErr.lift, setitem.
  rewrite Eg, Eh, (change_expr_num df b e E60 E20 L), Egc, Ehc. reflexivity.
Qed.

Lemma fresh_not_in_heap (h : gmap positive (frame A)) (l : positive)
    (df : frame A) :
  h !! l = Some df -> l <> fresh (dom h).
Proof.
  intros E ->. apply (is_fresh (dom h)). apply elem_of_dom. by eexists.
Qed.

Lemma fresh_lookup_None (h : gmap positive (frame A)) :
  h !! fresh (dom h) = None.
Proof. apply not_elem_of_dom. apply is_fresh. Qed.

(** Lines 105-108 from any state in which [data_Fer] is bound to a table
    with the three columns. *)
Lemma build_features_spec (s : py_state A) (l : positive) (df : frame A)
    (cn : column A) (b e : list A) :
  globals s !! "data_Fer" = Some l ->
  heap s !! l = Some df ->
  df !! "Country Name" = Some cn ->
  df !! "1960" = Some (NumCol b) ->
  df !! "2020" = Some (NumCol e) ->
  length b = length e ->
  let sel : frame A := <["Country Name" := cn]> (<["1960" := NumCol b]> ∅) in
  let l1 := fresh (dom (heap s)) in
  let l2 := fresh (dom (<[l1 := sel]> (heap s))) in
  build_features s
  = Some (tt, PyState (<["change" := l2]> (globals s))
                (<[l2 := <["Change" := NumCol (change_values b e)]> sel]>
                   (<[l1 := sel]> (heap s))))
  /\ l1 <> l /\ l2 <> l /\ l2 <> l1
  /\ heap s !! l1 = None /\ heap s !! l2 = None.
Proof.
  intros Eg Eh Ecn E60 E20 L sel l1 l2.
  assert (N1 : l <> l1) by (by apply fresh_not_in_heap with (df := df)).
  assert (N2 : l <> l2).
  { apply fresh_not_in_heap with (df := df).
    by rewrite lookup_insert_ne. }
  assert (N12 : l1 <> l2).
  { apply fresh_not_in_heap with (df := sel). apply lookup_insert_eq. }
  assert (F1 : heap s !! l1 = None) by apply fresh_lookup_None.
  assert (F2 : heap s !! l2 = None).
  { pose proof (fresh_lookup_None (<[l1 := sel]> (heap s))) as F.
    fold l2 in F. by rewrite lookup_insert_ne in F. }
  split_and!; try done.
  unfold build_features, StateErr.bind.
  rewrite (line_105_spec s l df cn (NumCol b) Eg Eh Ecn E60).
  cbn zeta. fold sel l1 l2.
  rewrite (line_107_spec _ l l2 df sel b e).
  - cbn [globals heap]. by rewrite insert_insert_eq.
  - cbn [globals]. by rewrite lookup_insert_ne.
  - cbn [heap]. by rewrite !lookup_insert_ne.
  - done.
  - done.
  - done.
  - cbn [globals]. apply lookup_insert_eq.
  - cbn [heap]. apply lookup_insert_eq.
Qed.

Lemma notna_false_isnan (v : A) : negb (s_isnan v) = true -> s_isnan v = false.
Proof. by destruct (s_isnan v). Qed.

(** What lines 102-108 do to a table read from the file that has the three
    columns, all of one length: the rows with both years present are kept,
    and the feature table gets the rate of each of them. *)
Lemma features_spec (df : frame A) (cn : column A) (c1960 c2020 : list A) :
  df !! "Country Name" = Some cn ->
  df !! "1960" = Some (NumCol c1960) ->
  df !! "2020" = Some (NumCol c2020) ->
  map_Forall (fun _ c => col_len c = length c1960) df ->
  let mask := mask_and (notna (NumCol c1960)) (notna (NumCol c2020)) in
  let b := keep mask c1960 in
  let e := keep mask c2020 in
  exists s1 s2 fdf ch,
    filter_rows (loaded df) = Some (tt, s1)
    /\ build_features s1 = Some (tt, s2)
    /\ table_of s1 "data_Fer" = Some fdf
    /\ fdf !! "1960" = Some (NumCol b)
    /\ fdf !! "2020" = Some (NumCol e)
    /\ length b = length e
    /\ table_of s2 "change" = Some ch
    /\ ch !! "1960" = Some (NumCol b)
    /\ ch !! "Change" = Some (NumCol (change_values b e)).
Proof.
  intros Ecn E60 E20 Hwf mask b e.
  destruct (filter_rows_spec df (NumCol c1960) (NumCol c2020) E60 E20 Hwf)
    as (s1 & l & Hrun1 & Eg & Eh).
  fold mask in Eh.
  assert (F60 : (col_keep mask <$> df) !! "1960" = Some (NumCol b)).
  { by rewrite lookup_fmap, E60. }
  assert (F20 : (col_keep mask <$> df) !! "2020" = Some (NumCol e)).
  { by rewrite lookup_fmap, E20. }
  assert (Fcn : (col_keep mask <$> df) !! "Country Name"
                = Some (col_keep mask cn)).
  { by rewrite lookup_fmap, Ecn. }
  assert (L : length b = length e).
  { apply length_keep_same. symmetry. apply (Hwf "2020" _ E20). }
  destruct (build_features_spec s1 l _ _ b e Eg Eh Fcn F60 F20 L)
    as (Hrun2 & _).
  eexists s1, _, _, _. split_and!; [exact Hrun1|exact Hrun2|..].
  - unfold table_of. rewrite Eg. exact Eh.
  - exact F60.
  - exact F20.
  - exact L.
  - unfold table_of. cbn [globals heap]. rewrite lookup_insert_eq.
    cbn [mbind option_bind]. apply lookup_insert_eq.
  - rewrite lookup_insert_ne by done. rewrite lookup_insert_ne by done.
    apply lookup_insert_eq.
  - apply lookup_insert_eq.
Qed.

(** C5, as amended.  Every entity that reaches the change-rate computation
    has a non-null baseline (1960) and a non-null end (2020) value: these
    are exactly the rows lines 102-103 keep, and the columns line 107
    divides by.  Zero is not tested. *)
Theorem change_rate_inputs_not_null (df : frame A) (cn : column A)
    (c1960 c2020 : list A) :
  df !! "Country Name" = Some cn ->
  df !! "1960" = Some (NumCol c1960) ->
  df !! "2020" = Some (NumCol c2020) ->
  map_Forall (fun _ c => col_len c = length c1960) df ->
  exists s1 s2 ch b e,
    filter_rows (loaded df) = Some (tt, s1)
    /\ build_features s1 = Some (tt, s2)
    /\ (table_of s1 "data_Fer" ≫= fun t => t !! "1960") = Some (NumCol b)
    /\ (table_of s1 "data_Fer" ≫= fun t => t !! "2020") = Some (NumCol e)
    /\ table_of s2 "change" = Some ch
    /\ ch !! "Change" = Some (NumCol (change_values b e))
    /\ Forall (fun v => s_isnan v = false) b
    /\ Forall (fun v => s_isnan v = false) e.
Proof.
  intros Ecn E60 E20 Hwf.
  destruct (features_spec df cn c1960 c2020 Ecn E60 E20 Hwf)
    as (s1 & s2 & fdf & ch & R1 & R2 & T1 & F60 & F20 & L & T2 & _ & Ech).
  exists s1, s2, ch. eexists _, _.
  split_and!; [exact R1|exact R2|by rewrite T1|by rewrite T1|exact T2
              |exact Ech|..].
  - eapply Forall_impl; [apply keep_Forall_left|]. apply notna_false_isnan.
  - eapply Forall_impl; [apply keep_Forall_right|]. apply notna_false_isnan.
Qed.

(** C10. Building the feature table leaves every object that existed
    before, the filtered source table among them, as it was, and [data_Fer]
    bound to it; [change] is bound to a new object whose columns
    "Country Name" and "1960" are those of the source, row for row, next to
    the new column "Change". *)
Theorem feature_table_is_a_copy (s : py_state A) (l : positive)
    (df : frame A) (cn : column A) (b e : list A) :
  globals s !! "data_Fer" = Some l ->
  heap s !! l = Some df ->
  df !! "Country Name" = Some cn ->
  df !! "1960" = Some (NumCol b) ->
  df !! "2020" = Some (NumCol e) ->
  length b = length e ->
  exists s' lc ch,
    build_features s = Some (tt, s')
    /\ (forall l0 d0, heap s !! l0 = Some d0 -> heap s' !! l0 = Some d0)
    /\ table_of s' "data_Fer" = Some df
    /\ globals s' !! "data_Fer" = Some l
    /\ globals s' !! "change" = Some lc
    /\ lc <> l
    /\ heap s !! lc = None
    /\ heap s' !! lc = Some ch
    /\ ch !! "Country Name" = df !! "Country Name"
    /\ ch !! "1960" = df !! "1960"
    /\ ch !! "Change" = Some (NumCol (change_values b e)).
Proof.
  intros Eg Eh Ecn E60 E20 L.
  destruct (build_features_spec s l df cn b e Eg Eh Ecn E60 E20 L)
    as (Hrun & N1 & N2 & N12 & F1 & F2).
  eexists _, _, _. split; [exact Hrun|].
  assert (Hframe : forall l0 d0, heap s !! l0 = Some d0 ->
     (<[fresh (dom (<[fresh (dom (heap s)) :=
            <["Country Name" := cn]> (<["1960" := NumCol b]> ∅)]> (heap s))) :=
          <["Change" := NumCol (change_values b e)]>
            (<["Country Name" := cn]> (<["1960" := NumCol b]> ∅))]>
        (<[fresh (dom (heap s)) :=
            <["Country Name" := cn]> (<["1960" := NumCol b]> ∅)]> (heap s)))
     !! l0 = Some d0).
  { intros l0 d0 E0.
    rewrite lookup_insert_ne by (intros <-; congruence).
    rewrite lookup_insert_ne by (intros <-; congruence). exact E0. }
  cbn [globals heap]. split_and!.
  - exact Hframe.
  - unfold table_of. cbn [globals heap].
    rewrite lookup_insert_ne by done. rewrite Eg. cbn [mbind option_bind].
    by apply Hframe.
  - by rewrite lookup_insert_ne.
  - apply lookup_insert_eq.
  - exact N2.
  - exact F2.
  - apply lookup_insert_eq.
  - rewrite lookup_insert_ne by done. by rewrite lookup_insert_eq.
  - rewrite lookup_insert_ne by done. rewrite lookup_insert_ne by done.
    by rewrite lookup_insert_eq.
  - apply lookup_insert_eq.
Qed.

End TableFacts.

(** C6. For every entity with non-null baseline and end values, that is for
    every row [k] of the filtered table, the entry of the column "Change" is
    [(100/60) * (value_end - value_start) / value_start]; on binary64
    numbers the rate for baseline 2.0 and end value 3.5 is exactly 1.25. *)
Theorem change_rate_formula (A : Type) `{Scalar A} (df : frame A)
    (cn : column A) (c1960 c2020 : list A) :
  df !! "Country Name" = Some cn ->
  df !! "1960" = Some (NumCol c1960) ->
  df !! "2020" = Some (NumCol c2020) ->
  map_Forall (fun _ c => col_len c = length c1960) df ->
  (exists s1 s2 ch b e r,
     filter_rows (loaded df) = Some (tt, s1)
     /\ build_features s1 = Some (tt, s2)
     /\ (table_of s1 "data_Fer" ≫= fun t => t !! "1960") = Some (NumCol b)
     /\ (table_of s1 "data_Fer" ≫= fun t => t !! "2020") = Some (NumCol e)
     /\ table_of s2 "change" = Some ch
     /\ ch !! "Change" = Some (NumCol r)
     /\ length r = length b /\ length e = length b
     /\ forall k value_start value_end,
          b !! k = Some value_start -> e !! k = Some value_end ->
          r !! k = Some (change_rate 60 value_start value_end))
  /\ change_rate 60 2%float 3.5%float = 1.25%float.
Proof.
  intros Ecn E60 E20 Hwf. split; [|vm_compute; reflexivity].
  destruct (features_spec df cn c1960 c2020 Ecn E60 E20 Hwf)
    as (s1 & s2 & fdf & ch & R1 & R2 & T1 & F60 & F20 & L & T2 & _ & Ech).
  exists s1, s2, ch. eexists _, _, _.
  split_and!; [exact R1|exact R2|by rewrite T1|by rewrite T1|exact T2
              |exact Ech|by apply length_change_values|by symmetry|].
  intros k bk ek. apply change_values_lookup.
Qed.

(** ** The feature builder on binary64 tables *)

Module FeatureExamples.
Import Float64Inputs.
Open Scope float_scope.

Lemma raw_well_formed :
  map_Forall (fun _ c => col_len c = length [2; nan; 4]) raw.
Proof.
  unfold raw. repeat (apply map_Forall_insert_2; [reflexivity|]).
  apply map_Forall_empty.
Qed.

Lemma change_rate_inputs_not_null_witness :
  exists s1 s2 ch b e,
    filter_rows (loaded raw) = Some (tt, s1)
    /\ build_features s1 = Some (tt, s2)
    /\ (table_of s1 "data_Fer" ≫= fun t => t !! "1960") = Some (NumCol b)
    /\ (table_of s1 "data_Fer" ≫= fun t => t !! "2020") = Some (NumCol e)
    /\ table_of s2 "change" = Some ch
    /\ ch !! "Change" = Some (NumCol (change_values b e))
    /\ Forall (fun v => s_isnan v = false) b
    /\ Forall (fun v => s_isnan v = false) e.
Proof.
  apply (change_rate_inputs_not_null raw (StrCol ["Aruba"; "Chad"; "Fiji"])
           [2; nan; 4] [3.5; 1; 2]).
  - reflexivity.
  - reflexivity.
  - reflexivity.
  - exact raw_well_formed.
Defined.

(** C5, as stated, fails: the filter of line 102 tests for missing values
    only.  An entity whose 1960 value is zero reaches the computation, and
    lines 107-108 divide by that zero. *)
Lemma zero_baseline_reaches_division :
  exists s1 s2,
    filter_rows (loaded raw_zero) = Some (tt, s1)
    /\ (table_of s1 "data_Fer" ≫= fun t => t !! "1960") = Some (NumCol [0])
    /\ build_features s1 = Some (tt, s2)
    /\ (table_of s2 "change" ≫= fun t => t !! "Change")
       = Some (NumCol [infinity]).
Proof.
  eexists _, _. split; [vm_compute; reflexivity|].
  split; [vm_compute; reflexivity|].
  split; vm_compute; reflexivity.
Qed.

Lemma change_rate_formula_witness :
  (exists s1 s2 ch b e r,
     filter_rows (loaded raw) = Some (tt, s1)
     /\ build_features s1 = Some (tt, s2)
     /\ (table_of s1 "data_Fer" ≫= fun t => t !! "1960") = Some (NumCol b)
     /\ (table_of s1 "data_Fer" ≫= fun t => t !! "2020") = Some (NumCol e)
     /\ table_of s2 "change" = Some ch
     /\ ch !! "Change" = Some (NumCol r)
     /\ length r = length b /\ length e = length b
     /\ forall k value_start value_end,
          b !! k = Some value_start -> e !! k = Some value_end ->
          r !! k = Some (change_rate 60 value_start value_end))
  /\ change_rate 60 2 3.5 = 1.25.
Proof.
  apply (change_rate_formula float raw (StrCol ["Aruba"; "Chad"; "Fiji"])
           [2; nan; 4] [3.5; 1; 2]).
  - reflexivity.
  - reflexivity.
  - reflexivity.
  - exact raw_well_formed.
Defined.

Lemma feature_table_is_a_copy_witness :
  exists s' lc ch,
    build_features filtered = Some (tt, s')
    /\ (forall l0 d0, heap filtered !! l0 = Some d0 -> heap s' !! l0 = Some d0)
    /\ table_of s' "data_Fer" = Some filtered_table
    /\ globals s' !! "data_Fer" = Some 3%positive
    /\ globals s' !! "change" = Some lc
    /\ lc <> 3%positive
    /\ heap filtered !! lc = None
    /\ heap s' !! lc = Some ch
    /\ ch !! "Country Name" = filtered_table !! "Country Name"
    /\ ch !! "1960" = filtered_table !! "1960"
    /\ ch !! "Change" = Some (NumCol (change_values [2; 4] [3.5; 2])).
Proof.
  apply (feature_table_is_a_copy filtered 3%positive filtered_table
           (StrCol ["Aruba"; "Fiji"]) [2; 4] [3.5; 2]);
    reflexivity.
Defined.

End FeatureExamples.

(** ** The robust scaler *)

Module ScalerFacts.
Open Scope R_scope.

Lemma round_trip_row (row c s : list R) :
  length row = length c -> length c = length s ->
  Forall (fun v => v <> 0) s ->
  zip_with Rplus (zip_with Rmult (zip_with Rdiv (zip_with Rminus row c) s) s) c
  = row.
Proof.
  revert c s. induction row as [|x row IH]; intros [|m c] [|q s] L1 L2 Hs;
    try discriminate; [done|].
  apply Forall_cons in Hs as [Hq Hs]. cbn. f_equal.
  - field. exact Hq.
  - apply IH; [by injection L1|by injection L2|done].
Qed.

(** What the validation accepts is a rectangle with a row and a column. *)
Lemma check_array_Some {A : Type} `{Scalar A} (X : list (list A)) (n : nat) :
  check_array X = Some n ->
  X <> [] /\ (1 <= n)%nat /\ Forall (fun row => length row = n) X.
Proof.
  unfold check_array. destruct X as [|row0 X0]; [discriminate|].
  set (X := row0 :: X0).
  destruct (forallb _ X) eqn:Hrect; cbn [andb]; [|discriminate].
  destruct (1 <=? length row0)%nat eqn:Hn; cbn [andb]; [|discriminate].
  destruct (forallb (forallb _) X) eqn:Hfin; [|discriminate].
  intros [= <-]. split_and!; [done|by apply Nat.leb_le|].
  apply Forall_forall. intros row Hrow. apply list_elem_of_In in Hrow.
  pose proof (proj1 (forallb_forall _ X) Hrect row Hrow) as E.
  by apply Nat.eqb_eq in E.
Qed.

(** On such a rectangle the validation is the test for infinities. *)
Lemma check_array_rectangle {A : Type} `{Scalar A} (X : list (list A))
    (n : nat) :
  X <> [] -> (1 <= n)%nat -> Forall (fun row => length row = n) X ->
  check_array X
  = if forallb (forallb (fun v => negb (s_isinf v))) X then Some n else None.
Proof.
  intros HX Hn Hrows. destruct X as [|row0 X0]; [done|].
  pose proof (Forall_inv Hrows) as L0. cbn beta in L0.
  unfold check_array.
  replace (forallb (fun row : list A => length row =? length row0)%nat
             (row0 :: X0)) with true.
  2:{ symmetry. apply forallb_forall. intros row Hin. apply Nat.eqb_eq.
      apply list_elem_of_In in Hin.
      rewrite L0. revert row Hin. by apply Forall_forall. }
  replace (1 <=? length row0)%nat with true
    by (symmetry; apply Nat.leb_le; lia).
  cbn [andb]. by rewrite L0.
Qed.

(** Real numbers are finite: over them the validation tests the shape
    alone. *)
Lemma no_infinity_real (X : list (list R)) :
  forallb (forallb (fun v => negb (s_isinf v))) X = true.
Proof. apply forallb_forall. intros row _. by apply forallb_forall. Qed.

(** The shape of a fitted state: one centre and one scale per column of
    the validated data. *)
Lemma fit_shape {A : Type} `{Scalar A} (X : list (list A))
    (st : scaler_state A) :
  fit X = Some st ->
  exists n, check_array X = Some n
    /\ length (center_ st) = n /\ length (scale_ st) = n.
Proof.
  unfold fit. destruct (check_array X) as [n|]; cbn [mbind option_bind];
    [|discriminate].
  destruct (mapM (column_of X) _) as [cols|] eqn:Ecols;
    cbn [mbind option_bind]; [|discriminate].
  intros [= <-]. exists n. cbn [center_ scale_].
  apply length_mapM in Ecols. rewrite length_seq in Ecols.
  by rewrite !length_map.
Qed.

Lemma mapM_total {X Y : Type} (g : X -> option Y) (h : X -> Y) (l : list X) :
  Forall (fun a => g a = Some (h a)) l -> mapM g l = Some (map h l).
Proof.
  induction 1 as [|a l Ea _ IH]; [done|]. cbn. rewrite Ea. cbn.
  by rewrite IH.
Qed.

(** The round trip in any arithmetic, binary64 included.  On the data the
    state was fitted on [transform] returns, with [(x - median) / scale] in
    every entry; [inverse_transform] of that raises when one of these
    entries is an infinity, and returns [y * scale + median] in every entry
    otherwise. *)
Lemma round_trip_returns_unless_overflow {A : Type} `{Scalar A}
    (X : list (list A)) (st : scaler_state A) :
  fit X = Some st ->
  let Y := map (fun row => zip_with s_div (zip_with s_sub row (center_ st))
                             (scale_ st)) X in
  transform st X = Some Y
  /\ inverse_transform st Y
     = if forallb (forallb (fun v => negb (s_isinf v))) Y
       then Some (map (fun row => zip_with s_add (zip_with s_mul row (scale_ st))
                                    (center_ st)) Y)
       else None.
Proof.
  intros Efit Y.
  destruct (fit_shape X st Efit) as (n & Echeck & Lc & Ls).
  destruct (check_array_Some X n Echeck) as (HX & Hn & Hrows).
  split.
  - unfold transform. rewrite Echeck. cbn [mbind option_bind].
    apply mapM_total. eapply Forall_impl; [exact Hrows|].
    intros row Lrow. cbn beta in Lrow. unfold transform_row.
    by rewrite decide_True by congruence.
  - assert (HY : Forall (fun row => length row = n) Y).
    { unfold Y. apply Forall_fmap. eapply Forall_impl; [exact Hrows|].
      intros row Lrow. cbn beta in Lrow. unfold compose. rewrite !length_zip_with. lia. }
    unfold inverse_transform.
    rewrite (check_array_rectangle Y n); [|by destruct X|done|done].
    destruct (forallb _ Y); cbn [mbind option_bind]; [|done].
    apply mapM_total. eapply Forall_impl; [exact HY|].
    intros row Lrow. cbn beta in Lrow.
    unfold inverse_transform_row, inplace.
    rewrite decide_True by congruence. cbn [mbind option_bind].
    by rewrite decide_True by (rewrite length_zip_with; lia).
Qed.

Lemma ten_eps_pos : 0 < ten_eps (A := R).
Proof. unfold ten_eps. cbn. lra. Qed.

(** The guard of the library leaves no zero scale. *)
Lemma handle_zeros_nonzero (v : R) : handle_zeros_in_scale v <> 0.
Proof.
  pose proof ten_eps_pos as Hpos.
  unfold handle_zeros_in_scale, s_ltb. cbn [s_leb s_of_Z real_scalar].
  destruct (Rle_dec v ten_eps), (Rle_dec ten_eps v); cbn [andb negb]; lra.
Qed.

Lemma fit_scale_nonzero (X : list (list R)) (st : scaler_state R) :
  fit X = Some st -> Forall (fun v => v <> 0) (scale_ st).
Proof.
  unfold fit. destruct (check_array X) as [n|]; cbn [mbind option_bind];
    [|discriminate].
  destruct (mapM (column_of X) _) as [cols|]; cbn [mbind option_bind];
    [|discriminate].
  intros [= <-]. cbn [scale_]. apply Forall_fmap, Forall_forall.
  intros c _. apply handle_zeros_nonzero.
Qed.

(** C3, as amended.  In exact arithmetic, for every matrix [X] that [fit]
    accepts and the state fitted on it, no fitted scale is zero, [transform]
    returns, and [inverse_transform(transform(X))] is [X]: [transform] is
    [(x - median) / scale] and [inverse_transform] is [x * scale + median],
    both with the one fitted state, the scale of a column being its
    interquartile range, or 1 where that range is zero. *)
Theorem scaler_round_trip_fitted (X : list (list R)) (st : scaler_state R) :
  fit X = Some st ->
  Forall (fun v => v <> 0) (scale_ st)
  /\ exists Y, transform st X = Some Y /\ inverse_transform st Y = Some X.
Proof.
  intros Efit. pose proof (fit_scale_nonzero X st Efit) as Hs.
  split; [exact Hs|].
  destruct (fit_shape X st Efit) as (n & Echeck & Lc & Ls).
  destruct (check_array_Some X n Echeck) as (_ & _ & Hrows).
  destruct (round_trip_returns_unless_overflow X st Efit) as [Etr Einv].
  eexists. split; [exact Etr|].
  rewrite Einv, no_infinity_real. f_equal.
  rewrite map_map. clear Etr Einv Echeck Efit.
  induction Hrows as [|row X0 Lrow _ IH]; [done|].
  cbn [map]. rewrite IH. f_equal.
  apply round_trip_row; [|congruence|exact Hs]. congruence.
Qed.

End ScalerFacts.

(** ** The scaler at concrete inputs *)

Module ScalerExamples.
Import Float64Inputs RealInputs.

Lemma sorted_pair (a b : R) :
  (a <= b)%R -> sorted_values [a; b] = [a; b].
Proof.
  intros Hab. unfold sorted_values, sort.
  cbn [List.filter s_isnan real_scalar negb foldr insert_sorted s_leb].
  by destruct (Rle_dec a b).
Qed.

Lemma fit_X_real : fit X_real = Some st_real.
Proof. reflexivity. Qed.

Lemma handle_zeros_large (v : R) :
  (1 / 1000 <= v)%R -> handle_zeros_in_scale v = v.
Proof.
  intros Hv. pose proof ScalerFacts.ten_eps_pos as Hpos.
  assert (ten_eps < 1 / 1000)%R by (unfold ten_eps; cbn; lra).
  unfold handle_zeros_in_scale, s_ltb. cbn [s_leb real_scalar].
  destruct (Rle_dec v ten_eps); [lra|reflexivity].
Qed.

(** The state fitted on [X_real]: medians 2 and 4, scales 1 and 2. *)
Lemma st_real_values :
  center_ st_real = [2; 4]%R /\ scale_ st_real = [1; 2]%R.
Proof.
  unfold st_real. cbn [center_ scale_ map].
  unfold nanmedian, iqr, nanpercentile.
  rewrite !sorted_pair by lra.
  cbn [length lookup list_lookup Nat.div Nat.divmod fst Nat.odd Nat.even
       negb andb Nat.leb Nat.sub default Nat.mul Nat.add Nat.modulo snd
       lerp s_add s_sub s_mul s_div s_of_Z real_scalar].
  unfold Datatypes.id.
  change (Z.of_nat 3) with 3%Z. change (Z.of_nat 1) with 1%Z.
  rewrite !handle_zeros_large by lra.
  split; (f_equal; [lra|f_equal; lra]).
Qed.

Lemma scaler_round_trip_fitted_witness :
  Forall (fun v => v <> 0%R) (scale_ st_real)
  /\ exists Y, transform st_real X_real = Some Y
               /\ inverse_transform st_real Y = Some X_real.
Proof.
  apply (ScalerFacts.scaler_round_trip_fitted X_real st_real).
  exact fit_X_real.
Defined.

Open Scope float_scope.

(** A constant column is given the scale 1, not its interquartile range 0:
    nothing is divided by zero and the round trip on [X_const] is exact. *)
Example constant_column_round_trip :
  fit X_const = Some (ScalerState [2; 5] [1; 1])
  /\ transform (ScalerState [2; 5] [1; 1]) X_const
     = Some [[-1; 0]; [0; 0]; [1; 0]]
  /\ inverse_transform (ScalerState [2; 5] [1; 1]) [[-1; 0]; [0; 0]; [1; 0]]
     = Some X_const.
Proof. split_and!; vm_compute; reflexivity. Qed.

(** C3, as stated, fails on binary64 numbers.  Every entry of [X_wide] is
    finite and [fit] accepts it, but the first column spans more than the
    largest [float64]: the median is taken as [(low + high) / 2] with the
    middle value [-1e308] for both, the sum overflows and the fitted centre
    is [-inf]; [transform] returns [+inf] in that column, and
    [inverse_transform] rejects the infinities: the round trip raises.  On
    [X_far] nothing overflows and the round trip returns, but the entry
    [1e-4] is absorbed when the median [1e20] is subtracted from it and
    comes back as [0], which is not within the tolerance
    [1e-8 + 1e-5 * abs x] of it that [np.allclose] takes. *)
Lemma scaler_round_trip_fails :
  (Forall (Forall (fun v => is_finite v = true)) X_wide
   /\ exists st Y,
        fit X_wide = Some st
        /\ center_ st = [neg_infinity; 2] /\ scale_ st = [1e308; 2]
        /\ transform st X_wide = Some Y
        /\ Y = [[infinity; -1]; [infinity; -0.5]; [infinity; 0];
                [infinity; 0.5]; [infinity; 1]]
        /\ inverse_transform st Y = None)
  /\ (Forall (Forall (fun v => is_finite v = true)) X_far
      /\ exists st Y Z,
           fit X_far = Some st
           /\ center_ st = [1e20; 1] /\ scale_ st = [1e20; 1]
           /\ transform st X_far = Some Y
           /\ Forall (Forall (fun v => is_finite v = true)) Y
           /\ inverse_transform st Y = Some Z
           /\ Z = [[0; 0]; [1e20; 1]; [2e20; 2]]
           /\ Z <> X_far
           /\ (1e-8 + 1e-5 * abs 1e-4 <? abs (0 - 1e-4)) = true).
Proof.
  split.
  - split; [repeat constructor|].
    eexists _, _. split; [vm_compute; reflexivity|].
    split; [reflexivity|]. split; [reflexivity|].
    split; [vm_compute; reflexivity|].
    split; [reflexivity|]. vm_compute. reflexivity.
  - split; [repeat constructor|].
    eexists _, _, _. split; [vm_compute; reflexivity|].
    split; [reflexivity|]. split; [reflexivity|].
    split; [vm_compute; reflexivity|].
    split; [repeat constructor|].
    split; [vm_compute; reflexivity|].
    split; [reflexivity|].
    split; [|vm_compute; reflexivity].
    intros E.
    apply (f_equal (fun M : list (list float) =>
                      is_zero (at_point (default [] (M !! 0%nat)) 0)))
      in E.
    vm_compute in E. discriminate.
Qed.

End ScalerExamples.

(** ** The silhouette sweep and the trend pipeline *)

Section PipelineFacts.
Context {A rng : Type} `{Scalar A} `{Library A rng}.

(** On the cubic model with four parameters [derivative] always returns,
    with one number per evaluation point. *)
Lemma derivative_cubic_returns (x params : list A) (i : nat) :
  length params = 4 -> i < 4 ->
  exists r, derivative x polynomial_fit params i = Some r
            /\ length r = length x.
Proof.
  intros L Hi.
  destruct params as [|a [|b [|c [|d [|? ?]]]]]; try discriminate L.
  unfold derivative, perturbation.
  destruct i as [|[|[|[|i]]]]; [..|lia];
    cbn [lookup list_lookup mbind option_bind zeros_like map list_insert
         insert zip_with polynomial_fit];
    (rewrite broadcast_same by (by rewrite !length_map));
    cbn [mbind option_bind]; eexists; (split; [reflexivity|]);
    by rewrite !length_map, length_zip_with, !length_map, Nat.min_id.
Qed.

Lemma error_range_cubic_returns (x popt : list A) (pcov : list (list A)) :
  length popt = 4 ->
  (forall i j, i < 4 -> j < 4 -> is_Some (cov_at pcov i j)) ->
  exists r, error_range x polynomial_fit popt pcov = Some r
            /\ length r = length x.
Proof.
  intros L Hcov.
  set (D := fun i => default [] (derivative x polynomial_fit popt i)).
  assert (HD : forall i, i ∈ range (length popt) ->
            derivative x polynomial_fit popt i = Some (D i)
            /\ length (D i) = length x).
  { intros i Hi. apply list_elem_of_In, in_seq in Hi.
    destruct (derivative_cubic_returns x popt i L ltac:(lia)) as (r & Er & Lr).
    unfold D. rewrite Er. done. }
  destruct (outer_loop_spec x popt polynomial_fit pcov D
              (range (length popt)) (range (length popt)) HD HD)
    with (var := zeros_like x) as (var & Erun & Lvar & _).
  - intros i j Hi Hj. apply list_elem_of_In, in_seq in Hi, Hj.
    apply Hcov; lia.
  - apply length_zeros_like.
  - exists (map s_sqrt var). split; [|by rewrite length_map].
    unfold error_range, error_range_var. by rewrite Erun.
Qed.

Lemma py_max_spec (z : Z) (l : list Z) :
  let m := fold_left Z.max l z in
  (z <= m)%Z /\ Forall (fun y => (y <= m)%Z) l /\ (m = z \/ m ∈ l).
Proof.
  revert z. induction l as [|y l IH]; intros z; cbn.
  - split_and!; [lia|constructor|by left].
  - destruct (IH (Z.max z y)) as (H1 & H2 & H3). split_and!.
    + lia.
    + constructor; [lia|done].
    + destruct H3 as [-> | Hin].
      * destruct (Z.max_spec z y) as [[_ ->] | [_ ->]];
          [right; left|by left].
      * right. by right.
Qed.

Lemma elem_of_arange (a b y : Z) :
  y ∈ arange a b <-> (a <= y < b)%Z.
Proof.
  unfold arange. rewrite list_elem_of_In, in_map_iff. split.
  - intros (i & <- & Hi). apply in_seq in Hi. lia.
  - intros Hy. exists (Z.to_nat (y - a)). split; [lia|].
    apply in_seq. lia.
Qed.

Lemma arange_lookup (a b : Z) (i : nat) :
  (Z.of_nat i < b - a)%Z -> arange a b !! i = Some (a + Z.of_nat i)%Z.
Proof.
  intros Hi. unfold arange. rewrite list_lookup_fmap, lookup_seq_lt by lia.
  reflexivity.
Qed.

Lemma log_log (c1 c2 : lib_call A) (g : rng) (l : list (lib_call A)) :
  log c2 (log c1 (World g l)) = World g (l ++ [c1; c2]).
Proof. unfold log. cbn. by rewrite <- app_assoc. Qed.

(** One call of [one_silhouette]: a fit with [n_init = 20] on [xy], then
    the score of its labels on the same [xy]. *)
Lemma one_silhouette_spec (xy : list (list A)) (k : nat) (w : world A rng) :
  is_Some (KMeans_fit k 20 xy (w_rng w)) ->
  (forall labels cen g,
     KMeans_fit k 20 xy (w_rng w) = Some ((labels, cen), g) ->
     is_Some (silhouette_score xy labels)) ->
  exists labels cen g score,
    KMeans_fit k 20 xy (w_rng w) = Some ((labels, cen), g)
    /\ silhouette_score xy labels = Some score
    /\ one_silhouette xy k w
       = Some (score, World g (w_log w ++ [Call_KMeans_fit k 20 xy;
                                           Call_silhouette_score xy labels])).
Proof.
  intros [[[labels cen] g] Ek] Hs.
  destruct (Hs labels cen g Ek) as [score Es].
  exists labels, cen, g, score. split_and!; [done..|].
  unfold one_silhouette, StateErr.bind, call_KMeans_fit,
    call_silhouette_score, StateErr.ret.
  rewrite Ek. cbn [fst]. rewrite Es. by rewrite log_log.
Qed.

Lemma sweep_loop_spec (norm : list (list A)) (ks : list nat) :
  (forall k g, k ∈ ks -> is_Some (KMeans_fit k 20 norm g)) ->
  (forall k g labels cen g', k ∈ ks ->
     KMeans_fit k 20 norm g = Some ((labels, cen), g') ->
     is_Some (silhouette_score norm labels)) ->
  forall w, exists results w',
    StateErr.for_ ks (fun ic =>
      let* score := one_silhouette norm ic in print_score ic score) w
    = Some (tt, w')
    /\ map (fun r => r.1.1) results = ks
    /\ w_log w' = w_log w ++ sweep_calls norm results
    /\ Forall (fun r =>
         silhouette_score norm r.1.2 = Some r.2
         /\ exists g cen g',
              KMeans_fit r.1.1 20 norm g = Some ((r.1.2, cen), g')) results.
Proof.
  intros Hk Hs. induction ks as [|k ks IH]; intros w.
  - exists [], w. split_and!; [done..| |constructor].
    unfold sweep_calls. cbn. by rewrite app_nil_r.
  - destruct (one_silhouette_spec norm k w (Hk k _ ltac:(left)))
      as (labels & cen & g & score & Ek & Es & Erun).
    { intros labels cen g. apply Hs. by left. }
    set (w1 := log (Call_print_score k score)
                 (World g (w_log w ++ [Call_KMeans_fit k 20 norm;
                                       Call_silhouette_score norm labels]))).
    destruct (IH ltac:(intros k' g' Hk'; apply Hk; by right)
                 ltac:(intros k' g' l' c' g'' Hk'; apply Hs; by right) w1)
      as (results & w' & Eloop & Eks & Elog & Hres).
    exists ((k, labels, score) :: results), w'. split_and!.
    + cbn [StateErr.for_]. unfold StateErr.bind at 1 2.
      rewrite Erun. unfold print_score, StateErr.modify. exact Eloop.
    + cbn. by rewrite Eks.
    + rewrite Elog. unfold w1, log, sweep_calls. cbn.
      rewrite <- !app_assoc. reflexivity.
    + constructor; [|done]. cbn. split; [done|]. by eexists _, _, _.
Qed.

(** C7. Where k-means returns for each [k] from 2 to 10 and the
    silhouette score is defined for the labels it returns, the sweep runs
    [one_silhouette] for [k = 2, 3, ..., 10] and no other [k]: for each it
    makes one k-means fit with [n_init = 20] on the scaled input, one
    silhouette score of that fit's labels on the same input, and reports
    the pair [(k, score)].  The clustering that follows asks for 3 clusters
    whatever the scores were. *)
Theorem silhouette_sweep_two_to_ten (norm : list (list A)) (w : world A rng) :
  (forall k g, 2 <= k <= 10 -> is_Some (KMeans_fit k 20 norm g)) ->
  (forall k g labels cen g', 2 <= k <= 10 ->
     KMeans_fit k 20 norm g = Some ((labels, cen), g') ->
     is_Some (silhouette_score norm labels)) ->
  exists results w',
    silhouette_sweep norm w = Some (tt, w')
    /\ map (fun r => r.1.1) results = [2; 3; 4; 5; 6; 7; 8; 9; 10]
    /\ w_log w' = w_log w ++ sweep_calls norm results
    /\ Forall (fun r =>
         silhouette_score norm r.1.2 = Some r.2
         /\ exists g cen g',
              KMeans_fit r.1.1 20 norm g = Some ((r.1.2, cen), g')) results
    /\ forall df_ex scaler,
         fit df_ex = Some scaler ->
         transform scaler df_ex = Some norm ->
         (forall g r g', KMeans_fit 3 20 norm g = Some (r, g') ->
                         is_Some (inverse_transform scaler r.2)) ->
         exists res w'',
           clustering df_ex w = Some (res, w'')
           /\ w_log w'' = w_log w' ++ [Call_KMeans_fit 3 20 norm].
Proof.
  intros Hk Hs.
  destruct (sweep_loop_spec norm (range_from 2 11)) with (w := w)
    as (results & w' & Eloop & Eks & Elog & Hres).
  { intros k g Hin. apply Hk. apply list_elem_of_In, in_seq in Hin.
    cbn in Hin. lia. }
  { intros k g labels cen g' Hin. apply Hs.
    apply list_elem_of_In, in_seq in Hin. cbn in Hin. lia. }
  exists results, w'. split_and!; [exact Eloop|exact Eks|exact Elog|exact Hres|].
  intros df_ex scaler Efit Etr Hinv.
  destruct (Hk 3 (w_rng w') ltac:(lia)) as [[r g'] E3].
  destruct (Hinv _ _ _ E3) as [cen Ecen].
  exists (r.1, cen), (log (Call_KMeans_fit 3 20 norm) (World g' (w_log w'))).
  split; [|reflexivity].
  unfold clustering, StateErr.bind, StateErr.lift, StateErr.ret.
  rewrite Efit, Etr. fold (silhouette_sweep norm).
  unfold silhouette_sweep in Eloop |- *. rewrite Eloop.
  unfold call_KMeans_fit. rewrite E3. cbn [fst snd] in *. by rewrite Ecen.
Qed.

(** C8. The trend pipeline calls [curve_fit] once; the parameter vector
    [popt] it returns is the one every later step evaluates the cubic with,
    on the observed years and on the future years alike, and the future
    years are exactly [max(years) + 1, ..., 2040], in order. *)
Theorem extrapolation_reuses_the_fit (years : list Z) (y_val : list A)
    (popt : list A) (pcov : list (list A)) (w : world A rng) :
  years <> [] ->
  curve_fit polynomial_fit (map s_of_Z years) y_val = Some (popt, pcov) ->
  length popt = 4 ->
  (forall i j, i < 4 -> j < 4 -> is_Some (cov_at pcov i j)) ->
  exists res w' last,
    trend_fit years y_val w = Some (res, w')
    /\ w_log w' = w_log w ++ [Call_curve_fit (map s_of_Z years) y_val]
    /\ t_popt res = popt
    /\ py_max years = Some last
    /\ last ∈ years /\ Forall (fun y => (y <= last)%Z) years
    /\ t_x_val res = map s_of_Z years
    /\ t_fut_x res = map s_of_Z (arange (last + 1) 2041)
    /\ (forall y, y ∈ arange (last + 1) 2041 <-> (last + 1 <= y <= 2040)%Z)
    /\ (forall i, (Z.of_nat i < 2040 - last)%Z ->
          arange (last + 1) 2041 !! i = Some (last + 1 + Z.of_nat i)%Z)
    /\ polynomial_fit (t_x_val res) popt = Some (t_fitted res)
    /\ polynomial_fit (t_fut_x res) popt = Some (t_fut_y res)
    /\ error_range (t_x_val res) polynomial_fit popt pcov = Some (t_y_err res)
    /\ error_range (t_fut_x res) polynomial_fit popt pcov
       = Some (t_y_fut_err res).
Proof.
  intros Hne Efit L Hcov.
  destruct years as [|z years0]; [done|].
  set (years := z :: years0) in *.
  set (last := fold_left Z.max years0 z).
  set (x_val := map s_of_Z years) in *.
  set (fut_x := map s_of_Z (arange (last + 1) 2041)).
  destruct (error_range_cubic_returns x_val popt pcov L Hcov)
    as (y_err & Eerr & _).
  destruct (error_range_cubic_returns fut_x popt pcov L Hcov)
    as (y_fut_err & Efuterr & _).
  assert (exists fitted, polynomial_fit x_val popt = Some fitted)
    as [fitted Efitted].
  { destruct popt as [|a [|b [|c [|d [|? ?]]]]]; try discriminate L.
    by eexists. }
  assert (exists fut_y, polynomial_fit fut_x popt = Some fut_y)
    as [fut_y Efuty].
  { destruct popt as [|a [|b [|c [|d [|? ?]]]]]; try discriminate L.
    by eexists. }
  destruct (py_max_spec z years0) as (Hz & Hle & Hin). fold last in Hz, Hle, Hin.
  exists (Trend popt pcov x_val fitted y_err fut_x fut_y y_fut_err),
    (log (Call_curve_fit x_val y_val) w), last.
  split_and!; try done.
  - unfold trend_fit, StateErr.bind, call_curve_fit, StateErr.lift,
      StateErr.ret.
    fold x_val. rewrite Efit. cbn [fst snd py_max years]. rewrite Eerr.
    fold last. fold fut_x. rewrite Efuty, Efuterr, Efitted. reflexivity.
  - destruct Hin as [-> | Hin]; [by left|by right].
  - by constructor.
  - intros y. rewrite elem_of_arange. lia.
  - intros i Hi. apply arange_lookup. lia.
Qed.

End PipelineFacts.

(** ** The pipelines against a stand-in library *)

Module PipelineExamples.
Import Float64Inputs.
Open Scope float_scope.

#[local] Existing Instance stub_library.

Example scaling_df_ex :
  fit df_ex = Some scaler0 /\ transform scaler0 df_ex = Some norm0.
Proof. split; vm_compute; reflexivity. Qed.

Lemma eye4_float_entries (i j : nat) :
  (i < 4)%nat -> (j < 4)%nat -> is_Some (cov_at eye4 i j).
Proof.
  intros Hi Hj.
  destruct i as [|[|[|[|i]]]]; [..|lia];
    (destruct j as [|[|[|[|j]]]]; [eexists; reflexivity..|lia]).
Qed.

Example scaling_df_13 :
  fit df_13 = Some scaler_13
  /\ transform scaler_13 df_13 = Some norm_13
  /\ inverse_transform scaler_13 norm_13 = Some df_13.
Proof. split_and!; vm_compute; reflexivity. Qed.

(** On thirteen points [round_robin_library] fits every number of clusters
    up to 13, one label per point. *)
Lemma round_robin_fit (k g : nat) :
  (1 <= k <= 13)%nat ->
  @KMeans_fit float nat round_robin_library k 20 norm_13 g
  = Some ((map (fun i => i mod k)%nat (seq 0 13), take k norm_13), S g).
Proof.
  intros Hk. cbn [KMeans_fit round_robin_library].
  destruct (Nat.eqb_spec k 0) as [->|_]; [lia|].
  destruct (Nat.ltb_spec (length norm_13) k) as [Hlt|_];
    [cbn in Hlt; lia|].
  reflexivity.
Qed.

Lemma round_robin_labels (k g g' : nat) (labels : list nat)
    (cen : list (list float)) :
  (1 <= k <= 13)%nat ->
  @KMeans_fit float nat round_robin_library k 20 norm_13 g
  = Some ((labels, cen), g') ->
  labels = map (fun i => i mod k)%nat (seq 0 13) /\ cen = take k norm_13.
Proof.
  intros Hk. rewrite (round_robin_fit k g Hk). intros E.
  split.
  - apply (f_equal (fun o : option ((list nat * list (list float)) * nat) =>
                      match o with Some r => r.1.1 | None => [] end)) in E.
    by symmetry.
  - apply (f_equal (fun o : option ((list nat * list (list float)) * nat) =>
                      match o with Some r => r.1.2 | None => [] end)) in E.
    by symmetry.
Qed.

Lemma silhouette_sweep_two_to_ten_witness :
  exists results w',
    @silhouette_sweep float nat round_robin_library norm_13 w0
    = Some (tt, w')
    /\ map (fun r => r.1.1) results = [2; 3; 4; 5; 6; 7; 8; 9; 10]%nat
    /\ w_log w' = w_log w0 ++ sweep_calls norm_13 results
    /\ Forall (fun r =>
         @silhouette_score float nat round_robin_library norm_13 r.1.2
         = Some r.2
         /\ exists g cen g',
              @KMeans_fit float nat round_robin_library r.1.1 20 norm_13 g
              = Some ((r.1.2, cen), g')) results
    /\ exists res w'',
         @clustering float nat _ round_robin_library df_13 w0
         = Some (res, w'')
         /\ w_log w'' = w_log w' ++ [Call_KMeans_fit 3 20 norm_13].
Proof.
  destruct (@silhouette_sweep_two_to_ten float nat _ round_robin_library
              norm_13 w0) as (results & w' & E1 & E2 & E3 & E4 & E5).
  - intros k g Hk. rewrite round_robin_fit by lia. by eexists.
  - intros k g labels cen g' Hk E.
    destruct (round_robin_labels k g g' labels cen ltac:(lia) E) as [-> _].
    assert (Hin : k ∈ seq 2 9) by (apply list_elem_of_In, in_seq; lia).
    cbn [seq] in Hin.
    repeat (apply elem_of_cons in Hin as [-> | Hin];
            [eexists; vm_compute; reflexivity|]).
    by apply elem_of_nil in Hin.
  - exists results, w'.
    split; [exact E1|]. split; [exact E2|]. split; [exact E3|].
    split; [exact E4|].
    apply (E5 df_13 scaler_13).
    + vm_compute. reflexivity.
    + vm_compute. reflexivity.
    + intros g r g' E. destruct r as [labels cen].
      destruct (round_robin_labels 3 g g' labels cen ltac:(lia) E) as [_ ->].
      eexists. vm_compute. reflexivity.
Defined.

Lemma extrapolation_reuses_the_fit_witness :
  exists res w' last,
    trend_fit [2019; 2020]%Z [2.25; 2.125] w0 = Some (res, w')
    /\ w_log w' = w_log w0 ++ [Call_curve_fit (map s_of_Z [2019; 2020]%Z)
                                              [2.25; 2.125]]
    /\ t_popt res = [0; 0; 0; 1]
    /\ py_max [2019; 2020]%Z = Some last
    /\ last ∈ [2019; 2020]%Z
    /\ Forall (fun y => (y <= last)%Z) [2019; 2020]%Z
    /\ t_x_val res = map s_of_Z [2019; 2020]%Z
    /\ t_fut_x res = map s_of_Z (arange (last + 1) 2041)
    /\ (forall y, y ∈ arange (last + 1) 2041 <-> (last + 1 <= y <= 2040)%Z)
    /\ (forall i, (Z.of_nat i < 2040 - last)%Z ->
          arange (last + 1) 2041 !! i = Some (last + 1 + Z.of_nat i)%Z)
    /\ polynomial_fit (t_x_val res) [0; 0; 0; 1] = Some (t_fitted res)
    /\ polynomial_fit (t_fut_x res) [0; 0; 0; 1] = Some (t_fut_y res)
    /\ error_range (t_x_val res) polynomial_fit [0; 0; 0; 1]
         eye4 = Some (t_y_err res)
    /\ error_range (t_fut_x res) polynomial_fit [0; 0; 0; 1]
         eye4 = Some (t_y_fut_err res).
Proof.
  apply (extrapolation_reuses_the_fit [2019; 2020]%Z [2.25; 2.125]
           [0; 0; 0; 1] eye4 w0).
  - discriminate.
  - reflexivity.
  - reflexivity.
  - exact eye4_float_entries.
Defined.

End PipelineExamples.

(* ===================================================================== *)
(** * Further properties *)

(** ** How the estimator fails and broadcasts *)

Section EstimatorEdges.
Context {A : Type} `{Scalar A}.

(** A loop raises as soon as one of its rounds raises whatever the state. *)
Lemma for_each_raises {S : Type} (l : list nat) (body : nat -> S -> option S)
    (i : nat) :
  i ∈ l -> (forall s, body i s = None) -> forall s, for_each l body s = None.
Proof.
  intros Hin Hfail. induction l as [|h l IH]; intros s.
  - by apply elem_of_nil in Hin.
  - cbn [for_each]. apply elem_of_cons in Hin as [<- | Hin].
    + by rewrite Hfail.
    + destruct (body h s) as [s'|]; [|done]. cbn. by apply IH.
Qed.

Lemma elem_of_range (i n : nat) : i < n -> i ∈ range n.
Proof. intros Hi. apply list_elem_of_In, in_seq. lia. Qed.

Lemma polynomial_fit_arity (x params : list A) :
  length params <> 4 -> polynomial_fit x params = None.
Proof.
  intros L. destruct params as [|a [|b [|c [|d [|? ?]]]]]; try done.
Qed.

Lemma derivative_raises_error_range (x : list A) (f : model)
    (params : list A) (cov : list (list A)) (i : nat) :
  i < length params ->
  derivative x f params i = None ->
  error_range x f params cov = None.
Proof.
  intros Hi E. unfold error_range, error_range_var.
  rewrite (for_each_raises _ _ i); [reflexivity|by apply elem_of_range|].
  intros var. by rewrite E.
Qed.

(** X1. A model that raises for the perturbation of any one parameter
    makes [error_range] raise: no partial band is returned.  So the cubic
    with a parameter vector of a length other than 0 and 4 raises for every
    [x] and covariance matrix, while the empty vector is accepted and gives
    the square root of zero at each point. *)
Theorem error_range_model_raises (x : list A) (f : model) (params : list A)
    (cov : list (list A)) :
  (forall i, i < length params -> derivative x f params i = None ->
             error_range x f params cov = None)
  /\ (0 < length params -> length params <> 4 ->
      error_range x polynomial_fit params cov = None)
  /\ error_range x f [] cov = Some (map (fun _ => s_sqrt s_zero) x).
Proof.
  split_and!.
  - intros i. apply derivative_raises_error_range.
  - intros Hpos L. apply derivative_raises_error_range with (i := 0); [done|].
    unfold derivative, perturbation.
    destruct (lookup_lt_is_Some_2 params 0 Hpos) as [p ->].
    cbn [mbind option_bind].
    rewrite !polynomial_fit_arity
      by (by rewrite length_zip_with, length_insert, length_zeros_like,
               Nat.min_id).
    reflexivity.
  - unfold error_range, error_range_var, zeros_like. cbn.
    by rewrite map_map.
Qed.

(** X2. A covariance matrix that lacks an entry [(i, j)] for two parameter
    numbers [i], [j] makes [error_range] raise, whatever the model does. *)
Theorem error_range_small_covariance (x : list A) (f : model)
    (params : list A) (cov : list (list A)) (i j : nat) :
  i < length params -> j < length params ->
  cov_at cov i j = None ->
  error_range x f params cov = None.
Proof.
  intros Hi Hj E. unfold error_range, error_range_var.
  rewrite (for_each_raises _ _ i); [reflexivity|by apply elem_of_range|].
  intros var. destruct (derivative x f params i) as [deriv1|]; [|done].
  cbn [mbind option_bind].
  apply (for_each_raises _ _ j); [by apply elem_of_range|].
  intros var'. destruct (derivative x f params j) as [deriv2|]; [|done].
  cbn [mbind option_bind].
  destruct (broadcast s_mul deriv1 deriv2) as [dd|]; [|done].
  cbn [mbind option_bind]. by rewrite E.
Qed.

(** X3. A model whose values have neither the shape of [x] nor length one
    makes [error_range] raise at the first accumulation. *)
Theorem error_range_shape_mismatch (x : list A) (f : model)
    (params : list A) (cov : list (list A)) (d : list A) :
  0 < length params ->
  derivative x f params 0 = Some d ->
  length d <> length x -> length d <> 1 ->
  error_range x f params cov = None.
Proof.
  intros Hpos E Lx L1. unfold error_range, error_range_var, range.
  destruct (length params) as [|n]; [lia|].
  cbn [seq for_each]. rewrite E. cbn [mbind option_bind].
  rewrite broadcast_same by done. cbn [mbind option_bind].
  destruct (cov_at cov 0 0) as [c|]; [|done]. cbn [mbind option_bind].
  assert (iadd (zeros_like x) (map (fun v => s_mul v c) (zip_with s_mul d d))
          = None) as ->; [|done].
  unfold iadd. rewrite decide_False.
  - destruct d as [|a [|b d']]; cbn in *; done.
  - by rewrite length_map, length_zip_with, Nat.min_id, length_zeros_like.
Qed.

Lemma iadd_scalar (var : list A) (t : A) :
  exists var',
    iadd var [t] = Some var'
    /\ length var' = length var
    /\ forall k, k < length var ->
       at_point var' k = s_add (at_point var k) t.
Proof.
  unfold iadd. destruct (decide (length [t] = length var)) as [E|E].
  - destruct var as [|v [|? ?]]; try discriminate E.
    eexists. split_and!; [done..|]. intros [|k] Hk; [done|cbn in Hk; lia].
  - eexists. split_and!; [done|by rewrite length_map|].
    intros k Hk. by apply (at_point_map (fun a => s_add a t)).
Qed.

Lemma inner_loop_scalar (x params : list A) (f : model) (cov : list (list A))
    (d : nat -> A) (i : nat) (a : A) (js : list nat) :
  (forall j, j ∈ js ->
     derivative x f params j = Some [d j] /\ is_Some (cov_at cov i j)) ->
  forall var,
  exists var',
    for_each js (fun j var =>
      deriv2 ← derivative x f params j;
      dd ← broadcast s_mul [a] deriv2;
      c ← cov_at cov i j;
      iadd var (map (fun v => s_mul v c) dd)) var = Some var'
    /\ length var' = length var
    /\ forall k, k < length var ->
       at_point var' k =
       fold_left (fun acc j =>
         s_add acc (s_mul (s_mul a (d j)) (cov_entry cov i j)))
         js (at_point var k).
Proof.
  induction js as [|j js IH]; intros HD var.
  - exists var. by split_and!.
  - destruct (HD j ltac:(left)) as (Ej & [c Ec]).
    destruct (iadd_scalar var (s_mul (s_mul a (d j)) c))
      as (var1 & E1 & L1 & Hpt1).
    destruct (IH ltac:(intros j' Hj'; apply HD; by right) var1)
      as (var' & Erun & L' & Hpt).
    exists var'. split_and!; [|congruence|].
    + cbn [for_each]. rewrite Ej. cbn [mbind option_bind].
      rewrite broadcast_same by done. cbn [mbind option_bind zip_with].
      rewrite Ec. cbn [mbind option_bind map]. rewrite E1. exact Erun.
    + intros k Hk. rewrite (Hpt k ltac:(lia)). cbn [fold_left]. f_equal.
      rewrite (Hpt1 k Hk). unfold cov_entry. by rewrite Ec.
Qed.

Lemma outer_loop_scalar (x params : list A) (f : model) (cov : list (list A))
    (d : nat -> A) (js is_ : list nat) :
  (forall j, j ∈ js -> derivative x f params j = Some [d j]) ->
  (forall i, i ∈ is_ -> derivative x f params i = Some [d i]) ->
  (forall i j, i ∈ is_ -> j ∈ js -> is_Some (cov_at cov i j)) ->
  forall var,
  exists var',
    for_each is_ (fun i var =>
      deriv1 ← derivative x f params i;
      for_each js (fun j var =>
        deriv2 ← derivative x f params j;
        dd ← broadcast s_mul deriv1 deriv2;
        c ← cov_at cov i j;
        iadd var (map (fun v => s_mul v c) dd)) var) var = Some var'
    /\ length var' = length var
    /\ forall k, k < length var ->
       at_point var' k =
       fold_left (fun acc i =>
         fold_left (fun acc j =>
           s_add acc (s_mul (s_mul (d i) (d j)) (cov_entry cov i j)))
           js acc)
         is_ (at_point var k).
Proof.
  intros HDj. induction is_ as [|i is_ IH]; intros HDi Hcov var.
  - exists var. by split_and!.
  - destruct (inner_loop_scalar x params f cov d i (d i) js) with (var := var)
      as (var1 & Erun1 & L1 & Hpt1).
    { intros j Hj. split; [by apply HDj|]. apply Hcov; [by left|done]. }
    destruct (IH ltac:(intros i' Hi'; apply HDi; by right)
                 ltac:(intros i' j' Hi' Hj'; apply Hcov; [by right|done])
                 var1) as (var' & Erun & L' & Hpt).
    exists var'. split_and!; [|congruence|].
    + cbn [for_each]. rewrite (HDi i ltac:(left)). cbn [mbind option_bind].
      rewrite Erun1. exact Erun.
    + intros k Hk. rewrite (Hpt k ltac:(lia)). cbn [fold_left]. f_equal.
      by apply Hpt1.
Qed.

(** X4. When the model returns a single number, whatever the shape of [x],
    so that [derivative] returns the single number [d i] for each parameter,
    [error_range] broadcasts it: the result has the shape of [x] and holds at
    every point the square root of the same bilinear form. *)
Theorem error_range_scalar_model (x : list A) (f : model) (params : list A)
    (cov : list (list A)) (d : nat -> A) :
  (forall i, i < length params -> derivative x f params i = Some [d i]) ->
  (forall i j, i < length params -> j < length params ->
     is_Some (cov_at cov i j)) ->
  exists r,
    error_range x f params cov = Some r
    /\ length r = length x
    /\ forall k, k < length x ->
       r !! k = Some (s_sqrt (bilinear (length params) d (cov_entry cov))).
Proof.
  intros HD Hcov.
  assert (Hin : forall i, i ∈ range (length params) -> i < length params).
  { intros i Hi. apply list_elem_of_In, in_seq in Hi. lia. }
  destruct (outer_loop_scalar x params f cov d
              (range (length params)) (range (length params)))
    with (var := zeros_like x) as (var & Erun & L & Hpt); auto.
  rewrite length_zeros_like in L, Hpt.
  exists (map s_sqrt var). split_and!.
  - unfold error_range, error_range_var. by rewrite Erun.
  - by rewrite length_map.
  - intros k Hk. rewrite list_lookup_fmap.
    destruct (lookup_lt_is_Some_2 var k ltac:(lia)) as [v Ev].
    rewrite Ev. cbn. do 2 f_equal.
    specialize (Hpt k Hk). unfold at_point at 1 in Hpt. rewrite Ev in Hpt.
    cbn in Hpt. rewrite Hpt, at_point_zeros_like. reflexivity.
Qed.

End EstimatorEdges.

(** ** The sign of the returned errors, on binary64 numbers *)

Module Float64Edges.
Open Scope float_scope.

(** IEEE 754: a square root is NaN or not below zero. *)
Lemma sqrt_not_negative (v : float) : (sqrt v <? 0) = false.
Proof.
  rewrite ltb_spec, sqrt_spec.
  change (Prim2SF 0) with (S754_zero false).
  unfold SF64sqrt, SFsqrt.
  destruct (Prim2SF v) as [[]|[]| |[] m e]; try reflexivity.
  destruct (SFsqrt_core_binary prec emax (Zpos m) e) as [[mz ez] lz].
  unfold binary_round_aux.
  destruct (shr_fexp prec emax mz ez lz) as [mrs' e'].
  destruct (shr_fexp prec emax _ e' loc_Exact) as [mrs'' e''].
  destruct (shr_m mrs'') as [|q|q]; try reflexivity.
  destruct (Z.leb e'' (emax - prec)); reflexivity.
Qed.

(** X5. Whatever the model, the parameters and the covariance matrix,
    [error_range] never returns a negative number: each entry of the band is
    NaN or at least zero. *)
Theorem error_range_never_negative (x : list float) (f : model)
    (params : list float) (cov : list (list float)) (r : list float) :
  error_range x f params cov = Some r ->
  Forall (fun v => (v <? 0) = false) r.
Proof.
  unfold error_range.
  destruct (error_range_var x f params cov) as [var|]; [|discriminate].
  cbn [mbind option_bind]. intros [= <-].
  apply Forall_fmap, Forall_forall. intros v _. apply sqrt_not_negative.
Qed.

Lemma error_range_never_negative_witness :
  Forall (fun v => (v <? 0) = false) [nan].
Proof.
  apply (error_range_never_negative Float64Inputs.x_3 polynomial_fit
           Float64Inputs.params_43 Float64Inputs.cov_rank1_float [nan]).
  vm_compute. reflexivity.
Defined.

End Float64Edges.

(** ** The central difference in exact arithmetic *)

Module ExactEdges.
Import Exact ExactFacts.
Open Scope R_scope.

Lemma perturbed_vector (op : R -> R -> R) (params : list R) (index : nat)
    (p w : R) :
  (forall a, op a 0 = a) ->
  params !! index = Some p ->
  zip_with op params (<[index := w]> (zeros_like params))
  = <[index := op p w]> params.
Proof.
  intros Hop E. apply list_eq. intros j. rewrite lookup_zip_with.
  assert (Hi : (index < length params)%nat) by (by eapply lookup_lt_Some).
  destruct (decide (j = index)) as [-> | Hne].
  - rewrite E, !list_lookup_insert_eq by (by rewrite ?length_zeros_like).
    reflexivity.
  - rewrite !list_lookup_insert_ne by done.
    unfold zeros_like. rewrite list_lookup_fmap.
    destruct (params !! j) as [a|]; cbn; [|done]. by rewrite Hop.
Qed.

Lemma map_map_zip_with {X Y Z W V : Type} (g : Z -> W) (h : W -> V)
    (op : X -> Y -> Z) (u : list X) (v : list Y) :
  map h (map g (zip_with op u v)) = zip_with (fun a b => h (g (op a b))) u v.
Proof.
  revert v. induction u as [|a u IH]; intros [|b v]; cbn; [done..|].
  by rewrite IH.
Qed.

(** [derivative] with the two perturbed vectors written out: only entry
    [index] moves, by [w] up and by [w] down. *)
Lemma derivative_unfolded (x : list R) (f : model) (params : list R)
    (index : nat) (p : R) (f_up f_low : list R) :
  params !! index = Some p ->
  let w := 1 / 1000000 * Rabs p in
  f x (<[index := p + w]> params) = Some f_up ->
  f x (<[index := p - w]> params) = Some f_low ->
  length f_up = length f_low ->
  derivative x f params index
  = Some (zip_with (fun u l => 1 / 2 * (u - l) / w) f_up f_low).
Proof.
  intros E w Eup Elow L. unfold derivative, perturbation. rewrite E.
  cbn [mbind option_bind s_add s_sub s_mul s_div s_abs s_1em6 s_half
       real_scalar]. fold w.
  rewrite (perturbed_vector Rplus params index p w) by (done || intros; lra).
  rewrite (perturbed_vector Rminus params index p w) by (done || intros; lra).
  rewrite Eup, Elow. cbn [mbind option_bind].
  rewrite broadcast_same by done. cbn [mbind option_bind].
  by rewrite map_map_zip_with.
Qed.

(** X6. In exact arithmetic [derivative] is the symmetric difference
    quotient: with [w = 1e-6 * |params[index]|], which is positive when
    [params[index]] is not zero, it evaluates the model at the parameter
    vector with entry [index] moved to [p + w] and to [p - w], every other
    entry untouched, and returns [(f_up - f_low) / (2 w)] at each point. *)
Theorem derivative_is_central_difference (x : list R) (f : model)
    (params : list R) (index : nat) (p : R) (f_up f_low : list R) :
  params !! index = Some p -> p <> 0 ->
  let w := 1 / 1000000 * Rabs p in
  f x (<[index := p + w]> params) = Some f_up ->
  f x (<[index := p - w]> params) = Some f_low ->
  length f_up = length f_low ->
  0 < w
  /\ derivative x f params index
     = Some (zip_with (fun u l => (u - l) / (2 * w)) f_up f_low).
Proof.
  intros E Hp w Eup Elow L.
  assert (Hw : 0 < w).
  { unfold w. pose proof (Rabs_pos_lt p Hp). lra. }
  split; [exact Hw|].
  rewrite (derivative_unfolded x f params index p f_up f_low E Eup Elow L).
  fold w. f_equal. apply zip_with_ext; [|done..].
  intros u l. field. lra.
Qed.

(** X7. In exact arithmetic the estimate is exact for every model that is
    affine in the perturbed parameter: if the model is [g x * t + h x] as a
    function of the value [t] of parameter [index], [derivative] returns
    [g x], for every nonzero value of that parameter. *)
Theorem derivative_exact_on_affine (x : list R) (f : model) (params : list R)
    (index : nat) (p : R) (g h : R -> R) :
  (forall t, f x (<[index := t]> params)
             = Some (map (fun xk => g xk * t + h xk) x)) ->
  params !! index = Some p -> p <> 0 ->
  derivative x f params index = Some (map g x).
Proof.
  intros Haff E Hp.
  assert (Hw : 0 < 1 / 1000000 * Rabs p).
  { pose proof (Rabs_pos_lt p Hp). lra. }
  rewrite (derivative_unfolded x f params index p _ _ E (Haff _) (Haff _))
    by (by rewrite !length_map).
  rewrite zip_with_map_map. f_equal. apply map_ext. intros xk.
  field. lra.
Qed.

End ExactEdges.

(** ** The estimator's edges at concrete inputs *)

Module EstimatorExamples.

Section OnFloats.
Import Float64Inputs.
Open Scope float_scope.

Lemma error_range_small_covariance_witness :
  error_range x2 polynomial_fit ones4 [[1]] = None.
Proof.
  apply (error_range_small_covariance x2 polynomial_fit ones4 [[1]] 0 1).
  - cbn. lia.
  - cbn. lia.
  - reflexivity.
Defined.

Lemma error_range_shape_mismatch_witness :
  error_range x_123 two_point_model [1] [[1]] = None.
Proof.
  apply (error_range_shape_mismatch x_123 two_point_model [1] [[1]]
           (default [] (derivative x_123 two_point_model [1] 0))).
  - cbn. lia.
  - vm_compute. reflexivity.
  - vm_compute. discriminate.
  - vm_compute. discriminate.
Defined.

Lemma error_range_scalar_model_witness :
  exists r,
    error_range x_123 constant_model [2] [[4]] = Some r
    /\ length r = length x_123
    /\ forall k, (k < length x_123)%nat ->
       r !! k = Some (s_sqrt (bilinear (length [2])
                       (fun i => at_point
                          (default [] (derivative x_123 constant_model [2] i))
                          0)
                       (cov_entry [[4]]))).
Proof.
  apply (error_range_scalar_model x_123 constant_model [2] [[4]]).
  - intros i Hi. destruct i as [|i]; [|cbn in Hi; lia].
    vm_compute. reflexivity.
  - intros i j Hi Hj. destruct i as [|i]; [|cbn in Hi; lia].
    destruct j as [|j]; [|cbn in Hj; lia]. by eexists.
Defined.

End OnFloats.

Section OnReals.
Import Exact ExactFacts ExactEdges RealInputs.
Open Scope R_scope.

Lemma derivative_is_central_difference_witness :
  0 < 1 / 1000000 * Rabs 3
  /\ derivative x2_real linear_model [3; 5] 0
     = Some (zip_with (fun u l => (u - l) / (2 * (1 / 1000000 * Rabs 3)))
               (map (fun xk => (3 + 1 / 1000000 * Rabs 3) * xk + 5) x2_real)
               (map (fun xk => (3 - 1 / 1000000 * Rabs 3) * xk + 5) x2_real)).
Proof.
  apply (derivative_is_central_difference x2_real linear_model [3; 5] 0 3).
  - reflexivity.
  - lra.
  - reflexivity.
  - reflexivity.
  - reflexivity.
Defined.

Lemma derivative_exact_on_affine_witness :
  derivative x2_real linear_model [3; 5] 0 = Some (map (fun xk => xk) x2_real).
Proof.
  apply (derivative_exact_on_affine x2_real linear_model [3; 5] 0 3
           (fun xk => xk) (fun _ => 5)).
  - intros t. cbn. do 3 f_equal; ring.
  - reflexivity.
  - lra.
Defined.

End OnReals.

End EstimatorExamples.

(** ** The filter and the feature table: shapes, frames and failures *)

Section TableEdges.
Context {A : Type} `{Scalar A}.

Lemma length_keep {X : Type} (mask : list bool) (l : list X) :
  length l = length mask -> length (keep mask l) = rows_kept mask.
Proof.
  unfold rows_kept. revert l.
  induction mask as [|b mask IH]; intros [|v l] L; try discriminate L;
    [done|].
  injection L as L. destruct b; cbn; [f_equal|]; by apply IH.
Qed.

Lemma rows_kept_le (mask : list bool) : rows_kept mask <= length mask.
Proof.
  unfold rows_kept. induction mask as [|[] mask IH]; cbn; lia.
Qed.

Lemma col_len_keep (mask : list bool) (c : column A) :
  col_len c = length mask -> col_len (col_keep mask c) = rows_kept mask.
Proof. destruct c; cbn; apply length_keep. Qed.

Lemma keep_all_true {X : Type} (mask : list bool) (l : list X) :
  Forall (fun b => b = true) mask -> length l = length mask ->
  keep mask l = l.
Proof.
  revert l. induction mask as [|b mask IH]; intros [|v l] Hall L;
    try discriminate L; [done|].
  apply Forall_cons in Hall as [-> Hall]. injection L as L. cbn.
  f_equal. by apply IH.
Qed.

Lemma mask_and_all_true (m1 m2 : list bool) :
  Forall (fun b => b = true) m1 -> Forall (fun b => b = true) m2 ->
  Forall (fun b => b = true) (mask_and m1 m2).
Proof.
  intros H1. revert m2. induction H1 as [|b m1 -> _ IH]; intros m2 H2.
  - constructor.
  - destruct H2 as [|b2 m2 -> H2]; cbn; constructor; [done|by apply IH].
Qed.

(** The rows the filter keeps pass its test. *)
Lemma notna_kept_left (c : column A) (m2 : list bool) :
  Forall (fun b => b = true) (notna (col_keep (mask_and (notna c) m2) c)).
Proof.
  destruct c as [l|l]; cbn [notna col_keep].
  - apply Forall_fmap, Forall_forall. done.
  - apply Forall_fmap. apply (keep_Forall_left (fun v => negb (s_isnan v))).
Qed.

Lemma notna_kept_right (c : column A) (m1 : list bool) :
  Forall (fun b => b = true) (notna (col_keep (mask_and m1 (notna c)) c)).
Proof.
  destruct c as [l|l]; cbn [notna col_keep].
  - apply Forall_fmap, Forall_forall. done.
  - apply Forall_fmap. apply (keep_Forall_right (fun v => negb (s_isnan v))).
Qed.

(** Lines 102-103 from any state: the new table, the new binding and
    nothing else. *)
Lemma filter_rows_from (s : py_state A) (l : positive) (df : frame A)
    (c1960 c2020 : column A) :
  globals s !! "data_Fer" = Some l ->
  heap s !! l = Some df ->
  df !! "1960" = Some c1960 ->
  df !! "2020" = Some c2020 ->
  map_Forall (fun _ c => col_len c = col_len c1960) df ->
  let mask := mask_and (notna c1960) (notna c2020) in
  exists s' l',
    filter_rows s = Some (tt, s')
    /\ globals s' !! "data_Fer" = Some l'
    /\ heap s' !! l' = Some (col_keep mask <$> df)
    /\ heap s !! l' = None
    /\ (forall l0 d0, heap s !! l0 = Some d0 -> heap s' !! l0 = Some d0)
    /\ (forall name, name <> "data_Fer" ->
          globals s' !! name = globals s !! name).
Proof.
  intros Eg Eh E60 E20 Hwf mask.
  pose proof (line_102_spec s l df c1960 c2020 Eg Eh E60 E20 Hwf) as H102.
  cbn zeta in H102. fold mask in H102.
  set (l1 := fresh (dom (heap s))) in *.
  set (fdf := col_keep mask <$> df) in *.
  set (s1 := PyState _ _) in H102.
  pose proof (line_103_spec s1 l1 fdf) as H103. cbn zeta in H103.
  specialize (H103 (lookup_insert_eq _ _ _) (lookup_insert_eq _ _ _)).
  set (l2 := fresh (dom (heap s1))) in *.
  assert (F1 : heap s !! l1 = None) by apply fresh_lookup_None.
  assert (F2 : heap s1 !! l2 = None) by apply fresh_lookup_None.
  assert (N12 : l1 <> l2).
  { intros E12. rewrite <- E12 in F2. unfold s1 in F2. cbn [heap] in F2.
    by rewrite lookup_insert_eq in F2. }
  assert (F2' : heap s !! l2 = None).
  { unfold s1 in F2. cbn [heap] in F2. by rewrite lookup_insert_ne in F2. }
  eexists _, l2. split_and!.
  - unfold filter_rows, StateErr.bind. rewrite H102. exact H103.
  - cbn [globals]. apply lookup_insert_eq.
  - cbn [heap]. apply lookup_insert_eq.
  - exact F2'.
  - intros l0 d0 E0. cbn [heap]. unfold s1. cbn [heap].
    rewrite lookup_insert_ne by (intros <-; congruence).
    rewrite lookup_insert_ne by (intros <-; congruence). exact E0.
  - intros name Hne. cbn [globals]. unfold s1. cbn [globals].
    by rewrite !lookup_insert_ne.
Qed.

Lemma length_filter_mask (c1960 c2020 : column A) :
  col_len c2020 = col_len c1960 ->
  length (mask_and (notna c1960) (notna c2020)) = col_len c1960.
Proof.
  intros L. rewrite length_mask_and, length_notna; [done|].
  by rewrite !length_notna.
Qed.

(** X8. The filter keeps a table rectangular: from a table whose columns
    all have [n] rows it makes a table with the same columns, each of as
    many rows as there are entities with both years present, at most [n]. *)
Theorem filter_keeps_table_rectangular (s : py_state A) (l : positive)
    (df : frame A) (c1960 c2020 : column A) :
  globals s !! "data_Fer" = Some l ->
  heap s !! l = Some df ->
  df !! "1960" = Some c1960 ->
  df !! "2020" = Some c2020 ->
  map_Forall (fun _ c => col_len c = col_len c1960) df ->
  let mask := mask_and (notna c1960) (notna c2020) in
  exists s' fdf,
    filter_rows s = Some (tt, s')
    /\ table_of s' "data_Fer" = Some fdf
    /\ dom fdf = dom df
    /\ map_Forall (fun _ c => col_len c = rows_kept mask) fdf
    /\ rows_kept mask <= col_len c1960.
Proof.
  intros Eg Eh E60 E20 Hwf mask.
  destruct (filter_rows_from s l df c1960 c2020 Eg Eh E60 E20 Hwf)
    as (s' & l' & Hrun & Eg' & Eh' & _).
  assert (Lmask : length mask = col_len c1960).
  { apply length_filter_mask. by apply (Hwf "2020"). }
  exists s', (col_keep mask <$> df). split_and!.
  - exact Hrun.
  - unfold table_of. rewrite Eg'. exact Eh'.
  - apply dom_fmap_L.
  - intros name c Ec. rewrite lookup_fmap in Ec.
    destruct (df !! name) as [c0|] eqn:E0; [|discriminate].
    injection Ec as <-. apply col_len_keep. rewrite Lmask.
    by apply (Hwf name).
  - rewrite <- Lmask. apply rows_kept_le.
Qed.

(** X9. The filter writes into no existing object: every table in the heap
    before lines 102-103, the one read from the file among them, is there
    unchanged afterwards; [data_Fer] is bound to a new object and no other
    name is touched. *)
Theorem filter_allocates_a_new_table (s : py_state A) (l : positive)
    (df : frame A) (c1960 c2020 : column A) :
  globals s !! "data_Fer" = Some l ->
  heap s !! l = Some df ->
  df !! "1960" = Some c1960 ->
  df !! "2020" = Some c2020 ->
  map_Forall (fun _ c => col_len c = col_len c1960) df ->
  exists s' l',
    filter_rows s = Some (tt, s')
    /\ globals s' !! "data_Fer" = Some l'
    /\ l' <> l
    /\ heap s !! l' = None
    /\ heap s' !! l = Some df
    /\ (forall l0 d0, heap s !! l0 = Some d0 -> heap s' !! l0 = Some d0)
    /\ (forall name, name <> "data_Fer" ->
          globals s' !! name = globals s !! name).
Proof.
  intros Eg Eh E60 E20 Hwf.
  destruct (filter_rows_from s l df c1960 c2020 Eg Eh E60 E20 Hwf)
    as (s' & l' & Hrun & Eg' & Eh' & Hnew & Hframe & Hglob).
  exists s', l'. split_and!; try done.
  - intros ->. congruence.
  - by apply Hframe.
Qed.

(** X10. The filter is idempotent: run on its own result it keeps every
    row, and [data_Fer] ends up bound to an equal table. *)
Theorem filter_is_idempotent (s : py_state A) (l : positive)
    (df : frame A) (c1960 c2020 : column A) :
  globals s !! "data_Fer" = Some l ->
  heap s !! l = Some df ->
  df !! "1960" = Some c1960 ->
  df !! "2020" = Some c2020 ->
  map_Forall (fun _ c => col_len c = col_len c1960) df ->
  exists s1 s2 fdf,
    filter_rows s = Some (tt, s1)
    /\ filter_rows s1 = Some (tt, s2)
    /\ table_of s1 "data_Fer" = Some fdf
    /\ table_of s2 "data_Fer" = Some fdf.
Proof.
  intros Eg Eh E60 E20 Hwf.
  set (mask := mask_and (notna c1960) (notna c2020)).
  destruct (filter_rows_from s l df c1960 c2020 Eg Eh E60 E20 Hwf)
    as (s1 & l1 & Hrun1 & Eg1 & Eh1 & _). fold mask in Eh1.
  set (fdf := col_keep mask <$> df) in *.
  assert (Lmask : length mask = col_len c1960).
  { apply length_filter_mask. by apply (Hwf "2020"). }
  assert (F60 : fdf !! "1960" = Some (col_keep mask c1960)).
  { unfold fdf. by rewrite lookup_fmap, E60. }
  assert (F20 : fdf !! "2020" = Some (col_keep mask c2020)).
  { unfold fdf. by rewrite lookup_fmap, E20. }
  assert (Hwf1 : map_Forall (fun _ c => col_len c = rows_kept mask) fdf).
  { intros name c Ec. unfold fdf in Ec. rewrite lookup_fmap in Ec.
    destruct (df !! name) as [c0|] eqn:E0; [|discriminate].
    injection Ec as <-. apply col_len_keep. rewrite Lmask.
    by apply (Hwf name). }
  assert (Hwf1' : map_Forall (fun _ c =>
                     col_len c = col_len (col_keep mask c1960)) fdf).
  { intros name c Ec. rewrite (Hwf1 name c Ec).
    symmetry. by apply (Hwf1 "1960"). }
  destruct (filter_rows_from s1 l1 fdf _ _ Eg1 Eh1 F60 F20 Hwf1')
    as (s2 & l2 & Hrun2 & Eg2 & Eh2 & _).
  set (mask' := mask_and (notna (col_keep mask c1960))
                         (notna (col_keep mask c2020))) in *.
  assert (Hall : Forall (fun b => b = true) mask').
  { apply mask_and_all_true;
      [apply notna_kept_left|apply notna_kept_right]. }
  assert (Lmask' : length mask' = rows_kept mask).
  { unfold mask'. rewrite length_filter_mask.
    - by apply (Hwf1 "1960").
    - by rewrite (Hwf1 "2020" _ F20), (Hwf1 "1960" _ F60). }
  assert (Hid : col_keep mask' <$> fdf = fdf).
  { apply map_eq. intros name. rewrite lookup_fmap.
    destruct (fdf !! name) as [c|] eqn:Ec; [|done]. cbn. f_equal.
    pose proof (Hwf1 name c Ec) as Lc.
    destruct c as [t|t]; cbn [col_keep col_len] in *; f_equal;
      apply keep_all_true; (done || congruence). }
  exists s1, s2, fdf. split_and!; [done..| |].
  - unfold table_of. by rewrite Eg1.
  - unfold table_of. rewrite Eg2. cbn [mbind option_bind].
    by rewrite Eh2, Hid.
Qed.

Lemma line_105_missing (s : py_state A) (l : positive) (df : frame A) :
  globals s !! "data_Fer" = Some l ->
  heap s !! l = Some df ->
  df !! "Country Name" = None \/ df !! "1960" = None ->
  line_105 s = None.
Proof.
  intros Eg Eh Hmiss.
  unfold line_105, StateErr.bind, lookup_var, deref, StateErr.lift.
  rewrite Eg, Eh. cbn [getitem_list].
  destruct Hmiss as [-> | E60]; [done|].
  destruct (df !! "Country Name"); cbn [mbind option_bind]; [|done].
  by rewrite E60.
Qed.

(** If the right-hand side of lines 107-108 raises, so do lines 105-108. *)
Lemma build_features_rhs_raises (s : py_state A) (l : positive)
    (df : frame A) :
  globals s !! "data_Fer" = Some l ->
  heap s !! l = Some df ->
  change_expr df = None ->
  build_features s = None.
Proof.
  intros Eg Eh Erhs. unfold build_features, StateErr.bind.
  destruct (df !! "Country Name") as [cn|] eqn:Ecn;
    [|by rewrite (line_105_missing s l df Eg Eh ltac:(by left))].
  destruct (df !! "1960") as [c1960|] eqn:E60;
    [|by rewrite (line_105_missing s l df Eg Eh ltac:(by right))].
  rewrite (line_105_spec s l df cn c1960 Eg Eh Ecn E60). cbn zeta.
  unfold line_107, StateErr.bind, lookup_var, deref, StateErr.lift.
  cbn [globals heap].
  rewrite lookup_insert_ne by done. rewrite Eg.
  assert (N1 : l <> fresh (dom (heap s))).
  { by apply fresh_not_in_heap with (df := df). }
  assert (N2 : l <> fresh (dom (<[fresh (dom (heap s)) :=
                 <["Country Name" := cn]> (<["1960" := c1960]> ∅)]> (heap s)))).
  { apply fresh_not_in_heap with (df := df). by rewrite lookup_insert_ne. }
  cbn [globals heap].
  rewrite lookup_insert_ne by done. rewrite lookup_insert_ne by done.
  by rewrite Eh, Erhs.
Qed.

(** X11. A missing column is a [KeyError] that ends the run: without
    "1960" or "2020" the filter of line 102 raises, and without
    "Country Name", "1960" or "2020" the feature table is not built. *)
Theorem missing_column_raises (s : py_state A) (l : positive)
    (df : frame A) :
  globals s !! "data_Fer" = Some l ->
  heap s !! l = Some df ->
  (df !! "1960" = None \/ df !! "2020" = None -> filter_rows s = None)
  /\ (df !! "Country Name" = None \/ df !! "1960" = None
      \/ df !! "2020" = None -> build_features s = None).
Proof.
  intros Eg Eh. split.
  - intros Hmiss.
    unfold filter_rows, StateErr.bind at 1, line_102, StateErr.bind,
      lookup_var, deref, StateErr.lift, getitem.
    rewrite Eg, Eh. destruct Hmiss as [-> | E20]; [done|].
    destruct (df !! "1960"); [|done]. by rewrite E20.
  - intros [Ecn | [E60 | E20]].
    + unfold build_features, StateErr.bind.
      by rewrite (line_105_missing s l df Eg Eh ltac:(by left)).
    + unfold build_features, StateErr.bind.
      by rewrite (line_105_missing s l df Eg Eh ltac:(by right)).
    + apply (build_features_rhs_raises s l df Eg Eh).
      unfold change_expr, getitem. by rewrite E20.
Qed.

(** X12. A year column of text ([object] dtype) with at least one row
    makes the arithmetic of lines 107-108 raise a [TypeError]: no feature
    table is built. *)
Theorem text_column_raises (s : py_state A) (l : positive) (df : frame A)
    (t : list string) :
  globals s !! "data_Fer" = Some l ->
  heap s !! l = Some df ->
  t <> [] ->
  df !! "1960" = Some (StrCol t) \/ df !! "2020" = Some (StrCol t) ->
  build_features s = None.
Proof.
  intros Eg Eh _ Htext.
  apply (build_features_rhs_raises s l df Eg Eh).
  unfold change_expr, getitem.
  destruct Htext as [E60 | E20].
  - rewrite E60. destruct (df !! "2020") as [[?|?]|]; done.
  - rewrite E20. destruct (df !! "1960") as [[?|?]|]; done.
Qed.

(** X13. The feature table has exactly the three columns "Country Name",
    "1960" and "Change" (the 2020 values are not carried over), and it is
    rectangular when the source is. *)
Theorem feature_table_columns (s : py_state A) (l : positive)
    (df : frame A) (cn : column A) (b e : list A) :
  globals s !! "data_Fer" = Some l ->
  heap s !! l = Some df ->
  df !! "Country Name" = Some cn ->
  df !! "1960" = Some (NumCol b) ->
  df !! "2020" = Some (NumCol e) ->
  length b = length e ->
  col_len cn = length b ->
  exists s' ch,
    build_features s = Some (tt, s')
    /\ table_of s' "change" = Some ch
    /\ dom ch = {[ "Country Name"; "1960"; "Change" ]}
    /\ ch !! "2020" = None
    /\ map_Forall (fun _ c => col_len c = length b) ch.
Proof.
  intros Eg Eh Ecn E60 E20 L Lcn.
  destruct (build_features_spec s l df cn b e Eg Eh Ecn E60 E20 L)
    as (Hrun & _).
  eexists _, _. split; [exact Hrun|]. split_and!.
  - unfold table_of. cbn [globals heap]. rewrite lookup_insert_eq.
    cbn [mbind option_bind]. apply lookup_insert_eq.
  - rewrite !dom_insert_L, dom_empty_L. set_solver.
  - by rewrite !lookup_insert_ne.
  - repeat apply map_Forall_insert_2; [..|apply map_Forall_empty].
    + cbn. by apply length_change_values.
    + exact Lcn.
    + done.
Qed.

Lemma keep_lookup {X : Type} (mask : list bool) (l : list X) (k : nat) :
  length l = length mask -> k < rows_kept mask ->
  keep mask l !! k = l !! source_row mask k.
Proof.
  unfold rows_kept. revert l k.
  induction mask as [|b mask IH]; intros [|v l] k L Hk;
    try discriminate L; [cbn in Hk; lia|].
  injection L as L. destruct b; cbn in *.
  - destruct k as [|k]; [done|]. cbn. apply IH; [done|lia].
  - by apply IH.
Qed.

Lemma source_row_kept (mask : list bool) (k : nat) :
  k < rows_kept mask -> mask !! source_row mask k = Some true.
Proof.
  unfold rows_kept. revert k.
  induction mask as [|b mask IH]; intros k Hk; [cbn in Hk; lia|].
  destruct b; cbn in *.
  - destruct k as [|k]; [done|]. cbn. apply IH. lia.
  - by apply IH.
Qed.

Lemma source_row_increasing (mask : list bool) (k k' : nat) :
  k < k' -> k' < rows_kept mask -> source_row mask k < source_row mask k'.
Proof.
  unfold rows_kept. revert k k'.
  induction mask as [|b mask IH]; intros k k' Hlt Hk; [cbn in Hk; lia|].
  destruct b; cbn in *.
  - destruct k' as [|k']; [lia|]. destruct k as [|k]; [lia|].
    apply -> Nat.succ_lt_mono. apply IH; lia.
  - apply -> Nat.succ_lt_mono. by apply IH.
Qed.

Lemma cell_at_keep (mask : list bool) (c : column A) (k : nat) :
  col_len c = length mask -> k < rows_kept mask ->
  cell_at (col_keep mask c) k = cell_at c (source_row mask k).
Proof.
  intros L Hk. destruct c as [l|l]; cbn [cell_at col_keep col_len] in *;
    by rewrite keep_lookup.
Qed.

(** X18. The filter keeps rows whole and in order: row [k] of the filtered
    table is, in every column, row [source_row mask k] of the table it was
    cut from, a row with both years present, and these source rows increase
    with [k]. *)
Theorem filter_keeps_rows_aligned (s : py_state A) (l : positive)
    (df : frame A) (c1960 c2020 : column A) :
  globals s !! "data_Fer" = Some l ->
  heap s !! l = Some df ->
  df !! "1960" = Some c1960 ->
  df !! "2020" = Some c2020 ->
  map_Forall (fun _ c => col_len c = col_len c1960) df ->
  let mask := mask_and (notna c1960) (notna c2020) in
  exists s' fdf,
    filter_rows s = Some (tt, s')
    /\ table_of s' "data_Fer" = Some fdf
    /\ (forall name c k,
          df !! name = Some c -> k < rows_kept mask ->
          exists c', fdf !! name = Some c'
            /\ cell_at c' k = cell_at c (source_row mask k))
    /\ (forall k, k < rows_kept mask ->
          notna c1960 !! source_row mask k = Some true
          /\ notna c2020 !! source_row mask k = Some true)
    /\ (forall k k', k < k' -> k' < rows_kept mask ->
          source_row mask k < source_row mask k').
Proof.
  intros Eg Eh E60 E20 Hwf mask.
  destruct (filter_rows_from s l df c1960 c2020 Eg Eh E60 E20 Hwf)
    as (s' & l' & Hrun & Eg' & Eh' & _).
  assert (Lmask : length mask = col_len c1960).
  { apply length_filter_mask. by apply (Hwf "2020"). }
  exists s', (col_keep mask <$> df).
  split; [|split; [|split; [|split]]].
  - exact Hrun.
  - unfold table_of. rewrite Eg'. exact Eh'.
  - intros name c k Ec Hk. exists (col_keep mask c). split.
    + by rewrite lookup_fmap, Ec.
    + apply cell_at_keep; [|done]. rewrite Lmask. by apply (Hwf name).
  - intros k Hk. pose proof (source_row_kept mask k Hk) as Hm.
    set (i := source_row mask k) in *.
    unfold mask, mask_and in Hm. rewrite lookup_zip_with in Hm.
    destruct (notna c1960 !! i) as [b1|]; cbn in Hm; [|discriminate Hm].
    destruct (notna c2020 !! i) as [b2|]; cbn in Hm; [|discriminate Hm].
    injection Hm as Hm.
    apply andb_true_iff in Hm as [-> ->]. done.
  - apply source_row_increasing.
Qed.

End TableEdges.

(** ** The pipelines: aborted runs, the second stage, the horizon *)

Section PipelineEdges.
Context {A rng : Type} `{Scalar A} `{Library A rng}.

Lemma for__raises {S : Type} (l : list nat)
    (body : nat -> StateErr.M S unit) (i : nat) :
  i ∈ l -> (forall s, body i s = None) ->
  forall s, StateErr.for_ l body s = None.
Proof.
  intros Hin Hfail. induction l as [|h l IH]; intros s.
  - by apply elem_of_nil in Hin.
  - cbn [StateErr.for_]. unfold StateErr.bind.
    apply elem_of_cons in Hin as [<- | Hin].
    + by rewrite Hfail.
    + destruct (body h s) as [[[] s']|]; [|done]. by apply IH.
Qed.

(** X14. An exception in one round ends the sweep: if for some [k] between
    2 and 10 the fit raises, or the score of its labels does, then the
    sweep raises, and so does the whole first stage: the clustering into
    three is not reached. *)
Theorem sweep_aborts (norm : list (list A)) (k : nat) (w : world A rng) :
  2 <= k <= 10 ->
  (forall g, match KMeans_fit k 20 norm g with
             | Some (kmeans, _) => silhouette_score norm kmeans.1 = None
             | None => True
             end) ->
  silhouette_sweep norm w = None
  /\ forall df_ex scaler,
       fit df_ex = Some scaler -> transform scaler df_ex = Some norm ->
       clustering df_ex w = None.
Proof.
  intros Hk Hfail.
  assert (Hsweep : forall w0, silhouette_sweep norm w0 = None).
  { intros w0. unfold silhouette_sweep.
    apply (for__raises _ _ k).
    - apply list_elem_of_In, in_seq. cbn. lia.
    - intros w1. unfold StateErr.bind, one_silhouette, StateErr.bind,
        call_KMeans_fit, call_silhouette_score.
      specialize (Hfail (w_rng w1)).
      destruct (KMeans_fit k 20 norm (w_rng w1)) as [[kmeans g]|]; [|done].
      by rewrite Hfail. }
  split; [apply Hsweep|].
  intros df_ex scaler Efit Etr.
  unfold clustering, StateErr.bind, StateErr.lift.
  rewrite Efit, Etr. by rewrite Hsweep.
Qed.

(** A state fitted on a matrix transforms that matrix. *)
Lemma mapM_is_Some_Forall {X Y : Type} (g : X -> option Y) (l : list X) :
  Forall (fun a => is_Some (g a)) l -> is_Some (mapM g l).
Proof.
  induction 1 as [|a l [b Eb] _ [k Ek]]; [by eexists|].
  exists (b :: k). cbn. rewrite Eb. cbn. by rewrite Ek.
Qed.

Lemma transform_fitted (X : list (list A)) (st : scaler_state A) :
  fit X = Some st -> is_Some (transform st X).
Proof.
  intros Efit.
  destruct (ScalerFacts.fit_shape X st Efit) as (n & Echeck & Lc & _).
  destruct (ScalerFacts.check_array_Some X n Echeck) as (_ & _ & HX).
  unfold transform. rewrite Echeck. cbn [mbind option_bind].
  apply mapM_is_Some_Forall. eapply Forall_impl; [exact HX|].
  intros row Lrow. unfold transform_row.
  rewrite decide_True by congruence. by eexists.
Qed.

(** X15. The second stage works on the members of cluster 0 alone: it
    fits the scaler again, on them, makes one more k-means call, for three
    clusters on the newly scaled members, runs no second sweep, and maps
    the new centres back with the newly fitted state. *)
Theorem second_stage_refits (df_ex : list (list A)) (w w1 : world A rng)
    (labels labels2 : list nat) (cen norm2 cen2 cen2' : list (list A))
    (scaler2 : scaler_state A) (g2 : rng) :
  clustering df_ex w = Some ((labels, cen), w1) ->
  length labels = length df_ex ->
  fit (keep (label_mask labels 0) df_ex) = Some scaler2 ->
  transform scaler2 (keep (label_mask labels 0) df_ex) = Some norm2 ->
  KMeans_fit 3 20 norm2 (w_rng w1) = Some ((labels2, cen2), g2) ->
  inverse_transform scaler2 cen2 = Some cen2' ->
  length (keep (label_mask labels 0) df_ex) = rows_kept (label_mask labels 0)
  /\ length norm2 = rows_kept (label_mask labels 0)
  /\ subclustering df_ex labels w1
     = Some ((labels2, cen2'),
             World g2 (w_log w1 ++ [Call_KMeans_fit 3 20 norm2]))
  /\ clustering_script df_ex w
     = Some (((labels, cen), (labels2, cen2')),
             World g2 (w_log w1 ++ [Call_KMeans_fit 3 20 norm2])).
Proof.
  intros Estage1 L Efit2 Etr2 Ekm Einv.
  assert (Lmask : length (label_mask labels 0) = length df_ex).
  { unfold label_mask. by rewrite length_map. }
  assert (Lmem : length (keep (label_mask labels 0) df_ex)
                 = rows_kept (label_mask labels 0)) by (by apply length_keep).
  assert (Esub : subclustering df_ex labels w1
                 = Some ((labels2, cen2'),
                         World g2 (w_log w1 ++ [Call_KMeans_fit 3 20 norm2]))).
  { unfold subclustering, StateErr.bind, StateErr.lift, getitem_rows,
      StateErr.ret.
    rewrite decide_True by exact Lmask.
    rewrite Efit2, Etr2. unfold call_KMeans_fit. rewrite Ekm. cbn [fst snd].
    rewrite Einv. reflexivity. }
  split_and!; [exact Lmem| |exact Esub|].
  - rewrite <- Lmem. unfold transform in Etr2.
    destruct (check_array _); cbn [mbind option_bind] in Etr2;
      [|discriminate].
    by apply length_mapM in Etr2.
  - unfold clustering_script, StateErr.bind at 1. rewrite Estage1.
    cbn [fst]. unfold StateErr.bind. by rewrite Esub.
Qed.

(** X16. The trend pipeline raises on an empty series, whatever the
    library returns for it, and raises when [curve_fit] does: no band is
    computed from parameters that were not fitted. *)
Theorem trend_fit_raises (years : list Z) (y_val : list A)
    (w : world A rng) :
  trend_fit [] y_val w = None
  /\ (curve_fit polynomial_fit (map s_of_Z years) y_val = None ->
      trend_fit years y_val w = None).
Proof.
  split.
  - unfold trend_fit, StateErr.bind, call_curve_fit, StateErr.lift.
    destruct (curve_fit _ _ _) as [r|]; [|done].
    by destruct (error_range _ _ _ _).
  - intros E. unfold trend_fit, StateErr.bind, call_curve_fit.
    by rewrite E.
Qed.

Lemma length_arange (a b : Z) : length (arange a b) = Z.to_nat (b - a).
Proof. unfold arange. by rewrite length_map, length_seq. Qed.

Lemma length_polynomial_fit (x params y : list A) :
  polynomial_fit x params = Some y -> length y = length x.
Proof.
  unfold polynomial_fit.
  destruct params as [|a [|b [|c [|d [|? ?]]]]]; try discriminate.
  intros [= <-]. by rewrite length_map.
Qed.

(** X17. The arrays of the trend pipeline have the shapes of their years:
    the fitted curve and its band one entry per observed year, the forecast
    and its band one entry per year after the last one up to 2040, that is
    [2040 - last] entries; when the series already reaches 2040 the
    forecast and its band are empty and nothing raises. *)
Theorem trend_shapes (years : list Z) (y_val : list A)
    (popt : list A) (pcov : list (list A)) (w : world A rng) :
  years <> [] ->
  curve_fit polynomial_fit (map s_of_Z years) y_val = Some (popt, pcov) ->
  length popt = 4 ->
  (forall i j, i < 4 -> j < 4 -> is_Some (cov_at pcov i j)) ->
  exists res w' last,
    trend_fit years y_val w = Some (res, w')
    /\ py_max years = Some last
    /\ length (t_fitted res) = length years
    /\ length (t_y_err res) = length years
    /\ length (t_fut_x res) = Z.to_nat (2040 - last)
    /\ length (t_fut_y res) = Z.to_nat (2040 - last)
    /\ length (t_y_fut_err res) = Z.to_nat (2040 - last)
    /\ ((2040 <= last)%Z ->
        t_fut_x res = [] /\ t_fut_y res = [] /\ t_y_fut_err res = []).
Proof.
  intros Hne Efit L Hcov.
  destruct years as [|z years0]; [done|].
  set (years := z :: years0) in *.
  set (last := fold_left Z.max years0 z).
  set (x_val := map s_of_Z years) in *.
  set (fut_x := map s_of_Z (arange (last + 1) 2041)).
  destruct (error_range_cubic_returns x_val popt pcov L Hcov)
    as (y_err & Eerr & Lerr).
  destruct (error_range_cubic_returns fut_x popt pcov L Hcov)
    as (y_fut_err & Efuterr & Lfuterr).
  assert (exists fitted, polynomial_fit x_val popt = Some fitted)
    as [fitted Efitted].
  { destruct popt as [|a [|b [|c [|d [|? ?]]]]]; try discriminate L.
    by eexists. }
  assert (exists fut_y, polynomial_fit fut_x popt = Some fut_y)
    as [fut_y Efuty].
  { destruct popt as [|a [|b [|c [|d [|? ?]]]]]; try discriminate L.
    by eexists. }
  assert (Lx : length x_val = length years).
  { unfold x_val. by rewrite length_map. }
  assert (Lfx : length fut_x = Z.to_nat (2040 - last)).
  { unfold fut_x. rewrite length_map, length_arange. f_equal. lia. }
  exists (Trend popt pcov x_val fitted y_err fut_x fut_y y_fut_err),
    (log (Call_curve_fit x_val y_val) w), last.
  cbn [t_fitted t_y_err t_fut_x t_fut_y t_y_fut_err].
  split_and!.
  - unfold trend_fit, StateErr.bind, call_curve_fit, StateErr.lift,
      StateErr.ret.
    fold x_val. rewrite Efit. cbn [fst snd py_max years]. rewrite Eerr.
    fold last. fold fut_x. rewrite Efuty, Efuterr, Efitted. reflexivity.
  - reflexivity.
  - by rewrite (length_polynomial_fit _ _ _ Efitted).
  - congruence.
  - exact Lfx.
  - by rewrite (length_polynomial_fit _ _ _ Efuty).
  - congruence.
  - intros Hlast.
    assert (Z0 : Z.to_nat (2040 - last) = 0) by lia.
    split_and!; apply length_zero_iff_nil.
    + congruence.
    + rewrite (length_polynomial_fit _ _ _ Efuty). congruence.
    + congruence.
Qed.

End PipelineEdges.

(** ** The tables and pipelines at concrete inputs *)

Module EdgeExamples.
Import Float64Inputs.
Open Scope float_scope.

Lemma raw_rectangular :
  map_Forall (fun _ c => col_len c = col_len raw_1960) raw.
Proof. exact FeatureExamples.raw_well_formed. Qed.

Lemma filter_keeps_table_rectangular_witness :
  exists s' fdf,
    filter_rows (loaded raw) = Some (tt, s')
    /\ table_of s' "data_Fer" = Some fdf
    /\ dom fdf = dom raw
    /\ map_Forall (fun _ c =>
         col_len c = rows_kept (mask_and (notna raw_1960)
                                         (notna raw_2020))) fdf
    /\ (rows_kept (mask_and (notna raw_1960)
                            (notna raw_2020))
        <= col_len raw_1960)%nat.
Proof.
  apply (filter_keeps_table_rectangular (loaded raw) 1%positive raw
           raw_1960 raw_2020);
    [reflexivity..|exact raw_rectangular].
Defined.

Lemma filter_allocates_a_new_table_witness :
  exists s' l',
    filter_rows (loaded raw) = Some (tt, s')
    /\ globals s' !! "data_Fer" = Some l'
    /\ l' <> 1%positive
    /\ heap (loaded raw) !! l' = None
    /\ heap s' !! 1%positive = Some raw
    /\ (forall l0 d0, heap (loaded raw) !! l0 = Some d0 ->
                      heap s' !! l0 = Some d0)
    /\ (forall name, name <> "data_Fer" ->
          globals s' !! name = globals (loaded raw) !! name).
Proof.
  apply (filter_allocates_a_new_table (loaded raw) 1%positive raw
           raw_1960 raw_2020);
    [reflexivity..|exact raw_rectangular].
Defined.

Lemma filter_is_idempotent_witness :
  exists s1 s2 fdf,
    filter_rows (loaded raw) = Some (tt, s1)
    /\ filter_rows s1 = Some (tt, s2)
    /\ table_of s1 "data_Fer" = Some fdf
    /\ table_of s2 "data_Fer" = Some fdf.
Proof.
  apply (filter_is_idempotent (loaded raw) 1%positive raw
           raw_1960 raw_2020);
    [reflexivity..|exact raw_rectangular].
Defined.

Lemma missing_column_raises_witness :
  (raw_no_2020 !! "1960" = None \/ raw_no_2020 !! "2020" = None ->
   filter_rows (loaded raw_no_2020) = None)
  /\ (raw_no_2020 !! "Country Name" = None \/ raw_no_2020 !! "1960" = None
      \/ raw_no_2020 !! "2020" = None ->
      build_features (loaded raw_no_2020) = None).
Proof.
  apply (missing_column_raises (loaded raw_no_2020) 1%positive raw_no_2020);
    reflexivity.
Defined.

Lemma text_column_raises_witness : build_features (loaded raw_text) = None.
Proof.
  apply (text_column_raises (loaded raw_text) 1%positive raw_text
           [".."; "4.0"]).
  - reflexivity.
  - reflexivity.
  - discriminate.
  - left. reflexivity.
Defined.

Lemma feature_table_columns_witness :
  exists s' ch,
    build_features filtered = Some (tt, s')
    /\ table_of s' "change" = Some ch
    /\ dom ch = {[ "Country Name"; "1960"; "Change" ]}
    /\ ch !! "2020" = None
    /\ map_Forall (fun _ c => col_len c = length ([2; 4] : list float)) ch.
Proof.
  apply (feature_table_columns filtered 3%positive filtered_table
           (StrCol ["Aruba"; "Fiji"]) [2; 4] [3.5; 2]);
    reflexivity.
Defined.

Lemma sweep_aborts_witness :
  @silhouette_sweep float nat small_sample_library norm0 w0 = None
  /\ forall df_ex scaler,
       fit df_ex = Some scaler -> transform scaler df_ex = Some norm0 ->
       @clustering float nat _ small_sample_library df_ex w0 = None.
Proof.
  apply (@sweep_aborts float nat _ small_sample_library norm0 4 w0).
  - lia.
  - intros g. exact I.
Defined.

Lemma second_stage_refits_witness :
  length (keep (label_mask labels_13 0) df_13)
  = rows_kept (label_mask labels_13 0)
  /\ length norm2_13 = rows_kept (label_mask labels_13 0)
  /\ @subclustering float nat _ round_robin_library df_13 labels_13 w_stage1
     = Some ((labels2_13, cen2_13'),
             World 11%nat (w_log w_stage1 ++ [Call_KMeans_fit 3 20 norm2_13]))
  /\ @clustering_script float nat _ round_robin_library df_13 w0
     = Some (((labels_13, cen_13), (labels2_13, cen2_13')),
             World 11%nat (w_log w_stage1 ++ [Call_KMeans_fit 3 20 norm2_13])).
Proof.
  apply (@second_stage_refits float nat _ round_robin_library df_13 w0
           w_stage1 labels_13 labels2_13 cen_13 norm2_13 cen2_13 cen2_13'
           scaler2_13 11%nat);
    vm_compute; reflexivity.
Defined.

Lemma trend_shapes_witness :
  exists res w' last,
    @trend_fit float nat _ stub_library [2019; 2020]%Z [2.25; 2.125] w0
    = Some (res, w')
    /\ py_max [2019; 2020]%Z = Some last
    /\ length (t_fitted res) = length [2019; 2020]%Z
    /\ length (t_y_err res) = length [2019; 2020]%Z
    /\ length (t_fut_x res) = Z.to_nat (2040 - last)
    /\ length (t_fut_y res) = Z.to_nat (2040 - last)
    /\ length (t_y_fut_err res) = Z.to_nat (2040 - last)
    /\ ((2040 <= last)%Z ->
        t_fut_x res = [] /\ t_fut_y res = [] /\ t_y_fut_err res = []).
Proof.
  apply (@trend_shapes float nat _ stub_library [2019; 2020]%Z [2.25; 2.125]
           [0; 0; 0; 1] eye4 w0).
  - discriminate.
  - reflexivity.
  - reflexivity.
  - exact PipelineExamples.eye4_float_entries.
Defined.

Lemma filter_keeps_rows_aligned_witness :
  exists s' fdf,
    filter_rows (loaded raw) = Some (tt, s')
    /\ table_of s' "data_Fer" = Some fdf
    /\ (forall name c k,
          raw !! name = Some c ->
          (k < rows_kept (mask_and (notna raw_1960) (notna raw_2020)))%nat ->
          exists c', fdf !! name = Some c'
            /\ cell_at c' k
               = cell_at c (source_row (mask_and (notna raw_1960)
                                                 (notna raw_2020)) k))
    /\ (forall k,
          (k < rows_kept (mask_and (notna raw_1960) (notna raw_2020)))%nat ->
          notna raw_1960
            !! source_row (mask_and (notna raw_1960) (notna raw_2020)) k
          = Some true
          /\ notna raw_2020
               !! source_row (mask_and (notna raw_1960) (notna raw_2020)) k
             = Some true)
    /\ (forall k k', (k < k')%nat ->
          (k' < rows_kept (mask_and (notna raw_1960) (notna raw_2020)))%nat ->
          (source_row (mask_and (notna raw_1960) (notna raw_2020)) k
           < source_row (mask_and (notna raw_1960) (notna raw_2020)) k')%nat).
Proof.
  apply (filter_keeps_rows_aligned (loaded raw) 1%positive raw
           raw_1960 raw_2020);
    [reflexivity..|exact raw_rectangular].
Defined.

End EdgeExamples.
